(** * A verified model of the calculator component of [src/App.tsx]

    The component keeps four pieces of React state (the two operand
    strings, the pending operation and the overwrite flag) and updates
    them from five handlers ([clear], [deleteNumber], [appendNumber],
    [compute], [chooseOperation]) that are driven by buttons and by a
    keyboard listener.  The handlers are embedded here as functions
    from state to state; the JavaScript runtime functions they call
    ([parseFloat], the binary64 arithmetic, [Math.round],
    [Number.prototype.toString], [String.prototype.split],
    [Intl.NumberFormat]) are modelled in module [JS] after the
    ECMAScript specification, on top of the binary64 operations of
    [SpecFloat].

    Strings are sequences of UTF-16 code units; every code unit that
    the component stores or inspects is below 256, so a code unit is an
    [ascii] and a JavaScript string a [string].

    The component handles one event at a time, and every handler reads
    the state of the latest render: a handler is a function of the
    state it finds, and the setters it calls give the next one. *)

From Stdlib Require Import ZArith NArith Bool List Ascii String Lia.
From Stdlib Require Import Floats.SpecFloat.
Import ListNotations.

Local Open Scope string_scope.
Local Open Scope Z_scope.

(* ================================================================= *)
(** ** The JavaScript runtime *)

Module JS.

(** *** Numbers: IEEE 754 binary64 *)

Definition prec : Z := 53.
Definition emax : Z := 1024.

Definition number : Type := spec_float.

Definition NaN : number := S754_nan.
Definition Infinity : number := S754_infinity false.

Definition isNaN (x : number) : bool :=
  match x with
  | S754_nan => true
  | _ => false
  end.

Definition add : number -> number -> number := SFadd prec emax.
Definition sub : number -> number -> number := SFsub prec emax.
Definition mul : number -> number -> number := SFmul prec emax.
Definition div : number -> number -> number := SFdiv prec emax.

(** Structural equality of numbers; on the canonical representations
    that the operations return it is equality of their values. *)
Definition same_number (x y : number) : bool :=
  match x, y with
  | S754_nan, S754_nan => true
  | S754_zero s, S754_zero t => Bool.eqb s t
  | S754_infinity s, S754_infinity t => Bool.eqb s t
  | S754_finite s m e, S754_finite t n f =>
      Bool.eqb s t && Pos.eqb m n && Z.eqb e f
  | _, _ => false
  end.

(** The Number value of the decimal [(-1)^neg * m * 10^e10]: the
    binary64 nearest to it, ties to even.  A non-negative power of ten
    is multiplied in and the integer rounded; a negative one is divided
    out with the correctly rounded division of [SFdiv]. *)
Definition number_of_decimal (neg : bool) (m : N) (e10 : Z) : number :=
  match m with
  | N0 => S754_zero neg
  | Npos p =>
      if 0 <=? e10
      then binary_normalize prec emax (cond_Zopp neg (Zpos p * 10 ^ e10)) 0 neg
      else SFdiv prec emax (S754_finite neg p 0)
                           (S754_finite false (Z.to_pos (10 ^ (- e10))) 0)
  end.

(** The numeric literal [100000000] of the source. *)
Definition lit_100000000 : number := number_of_decimal false 100000000 0.

(** The exact value of the finite number [m * 2^e] as a fraction
    [(numerator, denominator)] of positive integers. *)
Definition fraction_of (m : positive) (e : Z) : Z * Z :=
  if 0 <=? e then (Zpos m * 2 ^ e, 1) else (Zpos m, 2 ^ (- e)).

(** [Math.round]: the nearest integer, a tie going to the larger one;
    NaN, the infinities, the zeros and the integers are returned as they
    are; a value in [[-0.5, 0)] gives [-0]. *)
Definition Math_round (x : number) : number :=
  match x with
  | S754_finite s m e =>
      if 0 <=? e then x
      else
        let den := 2 ^ (- e) in
        let r := (2 * cond_Zopp s (Zpos m) + den) / (2 * den) in
        match r with
        | Z0 => S754_zero s
        | _ => binary_normalize prec emax r 0 false
        end
  | _ => x
  end.

(** *** Strings of decimal digits *)

Definition digit_char (d : N) : ascii := ascii_of_N (48 + d).

Fixpoint decimal_digits_aux (fuel : nat) (n : N) (acc : string) : string :=
  match fuel with
  | O => acc
  | S fuel' =>
      let acc' := String (digit_char (n mod 10)) acc in
      if (n / 10 =? 0)%N then acc' else decimal_digits_aux fuel' (n / 10) acc'
  end.

(** The decimal representation of [n], without leading zeros.  A number
    has at most [log2 n + 1] decimal digits, which bounds the loop. *)
Definition decimal_digits (n : N) : string :=
  decimal_digits_aux (S (N.to_nat (N.log2 n))) n "".

Fixpoint zeros (n : nat) : string :=
  match n with
  | O => ""
  | S n' => String "0" (zeros n')
  end.

(** *** [Number.prototype.toString] (radix 10)

    For a finite non-zero [x] the specification takes integers [n], [k]
    and [s] with [k >= 1], [10^(k-1) <= s < 10^k], such that the Number
    value of [s * 10^(n-k)] is [x] and [k] is as small as possible, the
    [s] nearest to [x] winning when there are several. *)

(** [num/den < 10^n]. *)
Definition lt_pow10 (num den n : Z) : bool :=
  if 0 <=? n then num <? den * 10 ^ n else num * 10 ^ (- n) <? den.

Fixpoint decimal_exponent_from (fuel : nat) (n num den : Z) : Z :=
  match fuel with
  | O => n
  | S fuel' =>
      if lt_pow10 num den n then n
      else decimal_exponent_from fuel' (n + 1) num den
  end.

(** The [n] with [10^(n-1) <= num/den < 10^n]; a positive binary64 lies
    between [10^-324] and [10^309]. *)
Definition decimal_exponent (num den : Z) : Z :=
  decimal_exponent_from 640 (-323) num den.

(** The fraction [(num/den) / 10^p]. *)
Definition scale10 (num den p : Z) : Z * Z :=
  if 0 <=? p then (num, den * 10 ^ p) else (num * 10 ^ (- p), den).

(** Does the decimal [s * 10^p] read back as [x]? *)
Definition reads_back (x : number) (s p : Z) : bool :=
  same_number (number_of_decimal false (Z.to_N s) p) x.

(** With [k] digits the only decimals that can read back as [x] are the
    two that enclose it; the search tries [k], [k+1], ... until one
    does (17 digits always suffice for a binary64).  The result is
    [(s, n)]. *)
Fixpoint shortest_from (fuel : nat) (k : Z) (x : number) (num den n0 : Z)
  : Z * Z :=
  let p := n0 - k in
  let '(tn, td) := scale10 num den p in
  let lo := tn / td in
  let r := tn mod td in
  let hi := lo + 1 in
  let below := (lo, n0) in
  let above := if hi =? 10 ^ k then (10 ^ (k - 1), n0 + 1) else (hi, n0) in
  match fuel with
  | O => below
  | S fuel' =>
      match reads_back x lo p, reads_back x hi p with
      | true, false => below
      | false, true => above
      | true, true =>
          match 2 * r ?= td with
          | Lt => below
          | Gt => above
          | Eq => if Z.even lo then below else above
          end
      | false, false => shortest_from fuel' (k + 1) x num den n0
      end
  end.

Definition shortest_decimal (m : positive) (e : Z) : Z * Z :=
  let '(num, den) := fraction_of m e in
  shortest_from 17 1 (S754_finite false m e) num den (decimal_exponent num den).

Definition exponent_part (e : Z) : string :=
  String "e" ((if e <? 0 then "-" else "+") ++ decimal_digits (Z.abs_N e)).

(** The four layouts of the specification, for the digits [ds] of [s]
    (so that [k] is their number) and the exponent [n]. *)
Definition layout (ds : string) (n : Z) : string :=
  let k := Z.of_nat (String.length ds) in
  if (k <=? n) && (n <=? 21) then
    ds ++ zeros (Z.to_nat (n - k))
  else if (0 <? n) && (n <=? 21) then
    substring 0 (Z.to_nat n) ds ++ "." ++
    substring (Z.to_nat n) (Z.to_nat (k - n)) ds
  else if (-6 <? n) && (n <=? 0) then
    "0." ++ zeros (Z.to_nat (- n)) ++ ds
  else if k =? 1 then
    ds ++ exponent_part (n - 1)
  else
    substring 0 1 ds ++ "." ++ substring 1 (Z.to_nat (k - 1)) ds ++
    exponent_part (n - 1).

Definition Number_toString (x : number) : string :=
  match x with
  | S754_nan => "NaN"
  | S754_zero _ => "0"
  | S754_infinity s => if s then "-Infinity" else "Infinity"
  | S754_finite s m e =>
      let '(d, n) := shortest_decimal m e in
      (if s then "-" else "") ++ layout (decimal_digits (Z.to_N d)) n
  end.

(** *** [parseFloat]

    Leading white space is dropped, then the longest prefix that is a
    [StrDecimalLiteral] is read: an optional sign, then [Infinity] or
    decimal digits with an optional fraction and an optional exponent.
    Without such a prefix the result is NaN. *)

Definition is_digit (c : ascii) : bool :=
  ((48 <=? N_of_ascii c) && (N_of_ascii c <=? 57))%N.

Definition digit_value (c : ascii) : N := (N_of_ascii c - 48)%N.

(** The white-space code units below 256: TAB, LF, VT, FF, CR, SP, NBSP. *)
Definition is_white_space (c : ascii) : bool :=
  let n := N_of_ascii c in
  ((n =? 9) || (n =? 10) || (n =? 11) || (n =? 12) || (n =? 13) ||
   (n =? 32) || (n =? 160))%N.

Fixpoint trim_start (s : string) : string :=
  match s with
  | String c s' => if is_white_space c then trim_start s' else s
  | EmptyString => s
  end.

(** The longest prefix of digits, and what follows it. *)
Fixpoint span_digits (s : string) : string * string :=
  match s with
  | String c s' =>
      if is_digit c
      then let '(ds, rest) := span_digits s' in (String c ds, rest)
      else ("", s)
  | EmptyString => ("", "")
  end.

Fixpoint digits_value_from (acc : N) (s : string) : N :=
  match s with
  | String c s' => digits_value_from (10 * acc + digit_value c)%N s'
  | EmptyString => acc
  end.

Definition digits_value (s : string) : N := digits_value_from 0 s.

(** The value of an [ExponentPart] at the head of [s]; [0] when there
    is none ([e] or [E] not followed by an optionally signed digit). *)
Definition parse_exponent (s : string) : Z :=
  match s with
  | String c s' =>
      if Ascii.eqb c "e" || Ascii.eqb c "E" then
        let '(neg, t) :=
          match s' with
          | String d t =>
              if Ascii.eqb d "-" then (true, t)
              else if Ascii.eqb d "+" then (false, t)
              else (false, s')
          | EmptyString => (false, s')
          end in
        match fst (span_digits t) with
        | EmptyString => 0
        | ds => cond_Zopp neg (Z.of_N (digits_value ds))
        end
      else 0
  | EmptyString => 0
  end.

(** The fraction digits after a [.] at the head of [s], and what
    follows them; no fraction when [s] does not start with [.]. *)
Definition span_fraction (s : string) : string * string :=
  match s with
  | String c t => if Ascii.eqb c "." then span_digits t else ("", s)
  | EmptyString => ("", s)
  end.

Definition parse_unsigned (neg : bool) (s : string) : number :=
  if prefix "Infinity" s then S754_infinity neg
  else
    let '(ip, r) := span_digits s in
    let '(fp, r') := span_fraction r in
    match ip ++ fp with
    | EmptyString => NaN
    | ds =>
        number_of_decimal neg (digits_value ds)
          (parse_exponent r' - Z.of_nat (String.length fp))
    end.

Definition parseFloat (s : string) : number :=
  match trim_start s with
  | String c t =>
      if Ascii.eqb c "-" then parse_unsigned true t
      else if Ascii.eqb c "+" then parse_unsigned false t
      else parse_unsigned false (String c t)
  | EmptyString => parse_unsigned false ""
  end.

(** *** String methods *)

(** [s.includes(c)] for a one-character [c]. *)
Fixpoint includes (s : string) (c : ascii) : bool :=
  match s with
  | String d s' => Ascii.eqb d c || includes s' c
  | EmptyString => false
  end.

(** [s.split(c)] for a one-character separator: the pieces between the
    separators, at least one. *)
Fixpoint split (s : string) (c : ascii) : list string :=
  match s with
  | String d s' =>
      if Ascii.eqb d c then "" :: split s' c
      else
        match split s' c with
        | piece :: pieces => String d piece :: pieces
        | [] => [String d ""]
        end
  | EmptyString => [""]
  end.

(** [s.slice(0, -1)]: all but the last code unit. *)
Fixpoint slice_0_minus1 (s : string) : string :=
  match s with
  | String c EmptyString => ""
  | String c s' => String c (slice_0_minus1 s')
  | EmptyString => ""
  end.

(** [a >= b] and [a <= b] on strings compare code units in
    lexicographic order. *)
Definition ge_string (a b : string) : bool := String.leb b a.
Definition le_string (a b : string) : bool := String.leb a b.

(** *** [new Intl.NumberFormat('en-US').format]

    The defaults of the locale: grouping by thousands with [,], at
    least one integer digit, no more than three fraction digits with
    trailing zeros dropped, rounding half away from zero, [-] for
    negative values, [NaN] for NaN.  The digits that are printed are
    those of the shortest decimal that reads back as the number, not
    those of its exact binary value. *)

Fixpoint group_thousands (ds : string) : string :=
  match ds with
  | String c ds' =>
      let n := String.length ds' in
      String c (if (Nat.ltb 0 n && Nat.eqb (Nat.modulo n 3) 0)%bool
                then String "," (group_thousands ds')
                else group_thousands ds')
  | EmptyString => ""
  end.

(** The fraction [f / 1000], [f < 1000], as [.ddd] without trailing
    zeros; nothing at all for [f = 0]. *)
Definition fraction_digits (f : N) : string :=
  let d1 := (f / 100)%N in
  let d2 := ((f / 10) mod 10)%N in
  let d3 := (f mod 10)%N in
  if (f =? 0)%N then ""
  else if (d3 =? 0)%N then
    if (d2 =? 0)%N then String "." (String (digit_char d1) "")
    else String "." (String (digit_char d1) (String (digit_char d2) ""))
  else
    String "." (String (digit_char d1) (String (digit_char d2)
                 (String (digit_char d3) ""))).

(** The sign U+221E that stands for an infinity is the only code unit
    above 255 in the whole component; it is only displayed, and is kept
    here as the three bytes of its UTF-8 encoding. *)
Definition infinity_sign : string :=
  String (ascii_of_N 226) (String (ascii_of_N 136) (String (ascii_of_N 158) "")).

Definition minus_sign (neg : bool) : string := if neg then "-" else "".

(** The magnitude that is printed for the finite number [m * 2^e], in
    thousandths.  As the formatter of the runtime does, an integer below
    2^53 is taken as it is, and any other number through its shortest
    round-trip decimal [d * 10^(p-3)], which is rounded to three
    fraction digits, a tie going away from zero. *)
Definition thousandths (m : positive) (e : Z) : N :=
  let '(num, den) := fraction_of m e in
  if (num mod den =? 0) && (num / den <? 2 ^ 53) then
    Z.to_N (1000 * (num / den))
  else
    let '(d, n) := shortest_decimal m e in
    let p := n - Z.of_nat (String.length (decimal_digits (Z.to_N d))) + 3 in
    if 0 <=? p then Z.to_N (d * 10 ^ p)
    else Z.to_N ((2 * d + 10 ^ (- p)) / (2 * 10 ^ (- p))).

Definition Intl_NumberFormat_format (x : number) : string :=
  match x with
  | S754_nan => "NaN"
  | S754_infinity s => minus_sign s ++ infinity_sign
  | S754_zero s => minus_sign s ++ "0"
  | S754_finite s m e =>
      let n := thousandths m e in
      minus_sign s ++ group_thousands (decimal_digits (n / 1000)) ++
      fraction_digits (n mod 1000)
  end.

End JS.

(* ================================================================= *)
(** ** The component state and its handlers *)

(** The division sign U+00F7 of the division button. *)
Definition division_sign : string := String (ascii_of_N 247) "".

(** The values of the four [useState] hooks. *)
Record state : Type := mkState {
  currentOperand : string;
  previousOperand : string;
  operation : option string;
  overwrite : bool
}.

(** The four [useState] initial values. *)
Definition initial : state :=
  {| currentOperand := ""; previousOperand := ""; operation := None;
     overwrite := false |}.

Definition setCurrentOperand (v : string) (st : state) : state :=
  {| currentOperand := v; previousOperand := previousOperand st;
     operation := operation st; overwrite := overwrite st |}.

Definition setPreviousOperand (v : string) (st : state) : state :=
  {| currentOperand := currentOperand st; previousOperand := v;
     operation := operation st; overwrite := overwrite st |}.

Definition setOperation (v : option string) (st : state) : state :=
  {| currentOperand := currentOperand st;
     previousOperand := previousOperand st;
     operation := v; overwrite := overwrite st |}.

Definition setOverwrite (v : bool) (st : state) : state :=
  {| currentOperand := currentOperand st;
     previousOperand := previousOperand st;
     operation := operation st; overwrite := v |}.

(** [formatOperand]; [None] is [undefined]. *)
Definition formatOperand (operand : option string) : option string :=
  match operand with
  | None => None
  | Some "" => None
  | Some operand =>
      let pieces := JS.split operand "." in
      let integer := nth 0 pieces "" in
      match nth_error pieces 1 with
      | None => Some (JS.Intl_NumberFormat_format (JS.parseFloat integer))
      | Some decimal =>
          Some (JS.Intl_NumberFormat_format (JS.parseFloat integer) ++
                "." ++ decimal)
      end
  end.

(** [clear]: all four values back to the initial ones. *)
Definition clear (st : state) : state :=
  setOverwrite false
    (setOperation None (setPreviousOperand "" (setCurrentOperand "" st))).

(** [deleteNumber]: a displayed result is wiped, otherwise the last
    character goes. *)
Definition deleteNumber (st : state) : state :=
  if overwrite st then setOverwrite false (setCurrentOperand "" st)
  else if String.eqb (currentOperand st) "" then st
  else setCurrentOperand (JS.slice_0_minus1 (currentOperand st)) st.

(** [appendNumber]; the functional update [prev => prev + number] of
    its last line appends to the current operand. *)
Definition appendNumber (number : string) (st : state) : state :=
  if String.eqb number "." && JS.includes (currentOperand st) "." then st
  else if overwrite st then
    setOverwrite false (setCurrentOperand number st)
  else if String.eqb number "0" && String.eqb (currentOperand st) "0" then st
  else if String.eqb number "." && String.eqb (currentOperand st) "" then
    setCurrentOperand "0." st
  else setCurrentOperand (currentOperand st ++ number) st.

(** The [switch] on the operation that [compute] and [chooseOperation]
    share; [None] is its [default] branch. *)
Definition apply_operation (op : option string) (prev current : JS.number)
  : option JS.number :=
  match op with
  | None => None
  | Some o =>
      if String.eqb o "+" then Some (JS.add prev current)
      else if String.eqb o "-" then Some (JS.sub prev current)
      else if String.eqb o "*" then Some (JS.mul prev current)
      else if String.eqb o division_sign || String.eqb o "/"
      then Some (JS.div prev current)
      else None
  end.

(** [Math.round(computation * 100000000) / 100000000]. *)
Definition round8 (computation : JS.number) : JS.number :=
  JS.div (JS.Math_round (JS.mul computation JS.lit_100000000))
         JS.lit_100000000.

(** [compute]: both operands must parse, and the operation must be a
    known one. *)
Definition compute (st : state) : state :=
  let prev := JS.parseFloat (previousOperand st) in
  let current := JS.parseFloat (currentOperand st) in
  if JS.isNaN prev || JS.isNaN current then st
  else
    match apply_operation (operation st) prev current with
    | None => st
    | Some computation =>
        setOverwrite true
          (setPreviousOperand ""
             (setOperation None
                (setCurrentOperand (JS.Number_toString (round8 computation))
                   st)))
    end.

(** [chooseOperation]: with a previous operand the pending operation
    is folded first; the overwrite flag is not touched. *)
Definition chooseOperation (op : string) (st : state) : state :=
  if String.eqb (currentOperand st) "" then st
  else
    let finish (st' : state) := setCurrentOperand "" (setOperation (Some op) st') in
    if negb (String.eqb (previousOperand st) "") then
      let prev := JS.parseFloat (previousOperand st) in
      let current := JS.parseFloat (currentOperand st) in
      if negb (JS.isNaN prev) && negb (JS.isNaN current) then
        match apply_operation (operation st) prev current with
        | None => st
        | Some computation =>
            finish (setPreviousOperand
                      (JS.Number_toString (round8 computation)) st)
        end
      else finish (setPreviousOperand (currentOperand st) st)
    else finish (setPreviousOperand (currentOperand st) st).

(** The [keydown] listener.  The second component tells whether
    [preventDefault] was called on the event. *)
Definition handleKeyDown (key : string) (st : state) : state * bool :=
  if JS.ge_string key "0" && JS.le_string key "9" then
    (appendNumber key st, false)
  else if String.eqb key "." then (appendNumber "." st, false)
  else if String.eqb key "=" || String.eqb key "Enter" then
    (compute st, true)
  else if String.eqb key "Backspace" then (deleteNumber st, false)
  else if String.eqb key "Escape" then (clear st, false)
  else if String.eqb key "+" || String.eqb key "-" || String.eqb key "*" ||
          String.eqb key "/" then
    let op := if String.eqb key "/" then division_sign else key in
    (chooseOperation op st, false)
  else (st, false).

(* ================================================================= *)
(** ** Runs of the component *)

(** What a button or a key asks of the component. *)
Inductive action : Type :=
  | Clear
  | DeleteNumber
  | AppendNumber (number : string)
  | ChooseOperation (op : string)
  | Equals.

Definition perform (a : action) (st : state) : state :=
  match a with
  | Clear => clear st
  | DeleteNumber => deleteNumber st
  | AppendNumber number => appendNumber number st
  | ChooseOperation op => chooseOperation op st
  | Equals => compute st
  end.

(** Each handler runs to completion before the next event is handled. *)
Definition run (actions : list action) (st : state) : state :=
  fold_left (fun s a => perform a s) actions st.

(** The arguments that the button grid and the keys of a keyboard pass
    to [appendNumber] and [chooseOperation]. *)
Definition digit_keys : list string :=
  ["0"; "1"; "2"; "3"; "4"; "5"; "6"; "7"; "8"; "9"; "."].

Definition operators : list string := ["+"; "-"; "*"; division_sign].

Inductive issued : action -> Prop :=
  | issued_clear : issued Clear
  | issued_delete : issued DeleteNumber
  | issued_append d : In d digit_keys -> issued (AppendNumber d)
  | issued_choose op : In op operators -> issued (ChooseOperation op)
  | issued_equals : issued Equals.

(** The states that the user can bring the component into. *)
Inductive reachable : state -> Prop :=
  | reachable_initial : reachable initial
  | reachable_step a st :
      reachable st -> issued a -> reachable (perform a st).

(* ================================================================= *)
(** ** Properties of states, operands and keys *)

(** The number of decimal points in [s]. *)
Fixpoint count_dots (s : string) : nat :=
  match s with
  | String c s' => ((if Ascii.eqb c "." then 1 else 0) + count_dots s')%nat
  | EmptyString => 0%nat
  end.

(** Only digits and decimal points. *)
Fixpoint digits_and_dots (s : string) : bool :=
  match s with
  | String c s' => (JS.is_digit c || Ascii.eqb c ".") && digits_and_dots s'
  | EmptyString => true
  end.

(** All the characters of [s] are digits. *)
Fixpoint all_digits (s : string) : bool :=
  match s with
  | String c s' => JS.is_digit c && all_digits s'
  | EmptyString => true
  end.

(** What the data model of the component promises of an operand. *)
Definition typed_shape (s : string) : Prop :=
  digits_and_dots s = true /\ (count_dots s <= 1)%nat.

(** What the handlers keep: an operand is built from digits and points,
    or it is the string of the number that a computation produced; in
    both cases it has at most one point. *)
Definition operand_shape (s : string) : Prop :=
  (count_dots s <= 1)%nat /\
  (digits_and_dots s = true \/ exists x : JS.number, s = JS.Number_toString x).

(** The invariant that the handlers preserve: without the overwrite flag
    the current operand was typed in. *)
Record shape_inv (st : state) : Prop := {
  shape_current : operand_shape (currentOperand st);
  shape_previous : operand_shape (previousOperand st);
  shape_typed : overwrite st = false -> digits_and_dots (currentOperand st) = true
}.

(** A pending operation comes with a previous operand. *)
Definition operation_has_previous (st : state) : Prop :=
  operation st <> None -> previousOperand st <> "".

(** [0 < x]. *)
Definition positive_number (x : JS.number) : bool :=
  SFltb (S754_zero false) x.

(** The names of the ten digit keys. *)
Definition digit_names : list string :=
  ["0"; "1"; "2"; "3"; "4"; "5"; "6"; "7"; "8"; "9"].

(** The keys other than digits that the listener reacts to. *)
Definition command_keys : list string :=
  ["."; "="; "Enter"; "Backspace"; "Escape"; "+"; "-"; "*"; "/"].

(** The first code unit of the name of the key is a digit. *)
Definition begins_with_digit (key : string) : bool :=
  match key with
  | String c _ => JS.is_digit c
  | EmptyString => false
  end.

(* ================================================================= *)
(** ** The button grid and the display *)

(** The buttons of the grid, in the order of the markup. *)
Inductive button : Type :=
  | ButtonAC | ButtonDelete | ButtonDivide
  | Button7 | Button8 | Button9 | ButtonTimes
  | Button4 | Button5 | Button6 | ButtonMinus
  | Button1 | Button2 | Button3 | ButtonPlus
  | Button0 | ButtonDot | ButtonEquals.

(** The [onClick] handler of each button. *)
Definition onClick (b : button) (st : state) : state :=
  match b with
  | ButtonAC => clear st
  | ButtonDelete => deleteNumber st
  | ButtonDivide => chooseOperation division_sign st
  | Button7 => appendNumber "7" st
  | Button8 => appendNumber "8" st
  | Button9 => appendNumber "9" st
  | ButtonTimes => chooseOperation "*" st
  | Button4 => appendNumber "4" st
  | Button5 => appendNumber "5" st
  | Button6 => appendNumber "6" st
  | ButtonMinus => chooseOperation "-" st
  | Button1 => appendNumber "1" st
  | Button2 => appendNumber "2" st
  | Button3 => appendNumber "3" st
  | ButtonPlus => chooseOperation "+" st
  | Button0 => appendNumber "0" st
  | ButtonDot => appendNumber "." st
  | ButtonEquals => compute st
  end.

(** The states that clicks on the buttons lead to. *)
Inductive clicked : state -> Prop :=
  | clicked_initial : clicked initial
  | clicked_step b st : clicked st -> clicked (onClick b st).

(** The lower line of the display:
    [formatOperand(currentOperand) || '0']. *)
Definition current_line (st : state) : string :=
  match formatOperand (Some (currentOperand st)) with
  | None => "0"
  | Some EmptyString => "0"
  | Some text => text
  end.

(** A value in the markup; [undefined] leaves no text. *)
Definition text_of (v : option string) : string :=
  match v with
  | None => ""
  | Some text => text
  end.

(** The upper line of the display:
    [{formatOperand(previousOperand)} {operation}]. *)
Definition previous_line (st : state) : string :=
  text_of (formatOperand (Some (previousOperand st))) ++ " " ++
  text_of (operation st).

(** A key on which the same handler runs as on a click on the button. *)
Definition key_of_button (b : button) : string :=
  match b with
  | ButtonAC => "Escape"
  | ButtonDelete => "Backspace"
  | ButtonDivide => "/"
  | Button7 => "7" | Button8 => "8" | Button9 => "9"
  | ButtonTimes => "*"
  | Button4 => "4" | Button5 => "5" | Button6 => "6"
  | ButtonMinus => "-"
  | Button1 => "1" | Button2 => "2" | Button3 => "3"
  | ButtonPlus => "+"
  | Button0 => "0"
  | ButtonDot => "."
  | ButtonEquals => "Enter"
  end.

(** The name of a key is one character, or does not begin with a
    digit: the keys of a keyboard. *)
Definition keyboard_key (key : string) : Prop :=
  String.length key = 1%nat \/ begins_with_digit key = false.

(** The operand begins with two zeros. *)
Definition begins_with_00 (s : string) : bool :=
  match s with
  | String a (String b _) => Ascii.eqb a "0" && Ascii.eqb b "0"
  | _ => false
  end.

(** The pending operation, if any, is one of the four operators. *)
Definition known_operation (st : state) : Prop :=
  operation st = None \/
  exists op : string, In op operators /\ operation st = Some op.

(** A previous operand is kept only for a pending operation. *)
Definition previous_has_operation (st : state) : Prop :=
  previousOperand st <> "" -> operation st <> None.

(** The action that a click on the button performs. *)
Definition action_of_button (b : button) : action :=
  match b with
  | ButtonAC => Clear
  | ButtonDelete => DeleteNumber
  | ButtonDivide => ChooseOperation division_sign
  | Button7 => AppendNumber "7"
  | Button8 => AppendNumber "8"
  | Button9 => AppendNumber "9"
  | ButtonTimes => ChooseOperation "*"
  | Button4 => AppendNumber "4"
  | Button5 => AppendNumber "5"
  | Button6 => AppendNumber "6"
  | ButtonMinus => ChooseOperation "-"
  | Button1 => AppendNumber "1"
  | Button2 => AppendNumber "2"
  | Button3 => AppendNumber "3"
  | ButtonPlus => ChooseOperation "+"
  | Button0 => AppendNumber "0"
  | ButtonDot => AppendNumber "."
  | ButtonEquals => Equals
  end.

(** Three decimal digits for [r < 1000], zeros included. *)
Definition three_digits (r : N) : string :=
  String (JS.digit_char (r / 100))
    (String (JS.digit_char ((r / 10) mod 10))
       (String (JS.digit_char (r mod 10)) "")).

Fixpoint with_separators_aux (fuel : nat) (n : N) : string :=
  match fuel with
  | O => JS.decimal_digits n
  | S fuel' =>
      if (n <? 1000)%N then JS.decimal_digits n
      else with_separators_aux fuel' (n / 1000) ++ "," ++
           three_digits (n mod 1000)
  end.

(** The integer [n] written with thousands separators, read off the
    number: the thousands of [n] with their separators, a [,], and the
    last three digits. *)
Definition with_separators (n : N) : string :=
  with_separators_aux (S (N.to_nat (N.log2 n))) n.

(** The reading of the display format: the integer part, with its
    sign and without leading zeros, written with thousands
    separators. *)
Definition rendered_integer_part (neg : bool) (ds : string) : string :=
  JS.minus_sign neg ++ with_separators (JS.digits_value ds).

Create HintDb calc.
#[local] Hint Constructors issued reachable : calc.

(** Solves [Forall issued l] for an explicit list [l]. *)
Ltac issued_actions :=
  repeat first
    [ apply Forall_nil
    | apply Forall_cons; [constructor; simpl; auto 20|] ].

Lemma run_app (l1 l2 : list action) (st : state) :
  run (l1 ++ l2) st = run l2 (run l1 st).
Proof. unfold run. apply fold_left_app. Qed.

Lemma reachable_run (l : list action) (st : state) :
  reachable st -> Forall issued l -> reachable (run l st).
Proof.
  intros Hst Hl. revert st Hst.
  induction Hl as [|a l Ha _ IH]; intros st Hst; simpl; auto with calc.
Qed.

(* ================================================================= *)
(** ** Strings: small facts *)

Lemma length_append (s t : string) :
  String.length (s ++ t) = (String.length s + String.length t)%nat.
Proof. induction s as [|c s IH]; simpl; [reflexivity | now rewrite IH]. Qed.

Lemma append_nil_r (s : string) : s ++ "" = s.
Proof. induction s as [|c s IH]; simpl; [reflexivity | now rewrite IH]. Qed.

Lemma nonempty_length (s : string) : (0 < String.length s)%nat <-> s <> "".
Proof.
  destruct s; simpl; split; intro H; try lia; try discriminate.
  now elim H.
Qed.

Lemma slice_0_minus1_snoc (s : string) (c : ascii) :
  JS.slice_0_minus1 (s ++ String c "") = s.
Proof.
  induction s as [|d s IH]; [reflexivity|].
  simpl. rewrite IH. destruct s; reflexivity.
Qed.

(* ================================================================= *)
(** ** [compute] on concrete operands *)

(** C1. In the state previousOperand = "2", operation = "+",
    currentOperand = "3", whatever the overwrite flag, [compute] gives
    currentOperand = "5", an empty previousOperand, no operation and
    overwrite = true. *)
Theorem compute_2_plus_3 (ow : bool) :
  compute {| currentOperand := "3"; previousOperand := "2";
             operation := Some "+"; overwrite := ow |}
  = {| currentOperand := "5"; previousOperand := "";
       operation := None; overwrite := true |}.
Proof. destruct ow; vm_compute; reflexivity. Qed.

(** C2. Chained operations fold from left to right: from the initial
    state, 2 + 3 * 4 = gives "20", and pressing [*] has already folded
    2 + 3 into previousOperand = "5" with operation [*]. *)
Theorem chained_operations_fold_left :
  let after_times :=
    run [AppendNumber "2"; ChooseOperation "+"; AppendNumber "3";
         ChooseOperation "*"] initial in
  previousOperand after_times = "5" /\
  operation after_times = Some "*" /\
  currentOperand (run [AppendNumber "4"; Equals] after_times) = "20".
Proof. vm_compute. repeat split; reflexivity. Qed.

(** The first [+] of that run only moves the operand. *)
Lemma first_operator_moves_operand :
  run [AppendNumber "2"; ChooseOperation "+"] initial
  = {| currentOperand := ""; previousOperand := "2";
       operation := Some "+"; overwrite := false |}.
Proof. reflexivity. Qed.

(* ================================================================= *)
(** ** [appendNumber] and the decimal point *)

Lemma appendNumber_dot_on_empty (st : state) :
  currentOperand st = "" -> overwrite st = false ->
  currentOperand (appendNumber "." st) = "0.".
Proof.
  intros Hc Ho. unfold appendNumber. rewrite Hc, Ho. reflexivity.
Qed.

Lemma appendNumber_zero_on_zero (st : state) :
  currentOperand st = "0" -> overwrite st = false ->
  appendNumber "0" st = st.
Proof.
  intros Hc Ho. unfold appendNumber. rewrite Hc, Ho. reflexivity.
Qed.

(** C3. After 2 + 3 = and a further [+] the current operand is empty
    while the overwrite flag is still set; the decimal point then gives
    the operand "." and not "0.". *)
Theorem dot_after_result_and_operator :
  let st :=
    run [AppendNumber "2"; ChooseOperation "+"; AppendNumber "3"; Equals;
         ChooseOperation "+"] initial in
  reachable st /\
  currentOperand st = "" /\
  overwrite st = true /\
  currentOperand (appendNumber "." st) = "." /\
  currentOperand (appendNumber "." st) <> "0.".
Proof.
  split.
  - apply reachable_run; [constructor|]. issued_actions.
  - vm_compute. repeat split; try reflexivity. discriminate.
Qed.

(* ================================================================= *)
(** ** [compute] without two numbers *)

Lemma parseFloat_empty : JS.parseFloat "" = JS.NaN.
Proof. reflexivity. Qed.

Lemma compute_guard (st : state) :
  JS.isNaN (JS.parseFloat (previousOperand st)) ||
  JS.isNaN (JS.parseFloat (currentOperand st)) = true ->
  compute st = st.
Proof. intros H. unfold compute. rewrite H. reflexivity. Qed.

(** An empty operand does not parse: [=] pressed too early does
    nothing. *)
Lemma compute_with_empty_operand (st : state) :
  previousOperand st = "" \/ currentOperand st = "" -> compute st = st.
Proof.
  intros [H | H]; apply compute_guard; rewrite H, parseFloat_empty.
  - reflexivity.
  - apply orb_true_r.
Qed.

(** C4. [compute] leaves the whole state as it is when one of the two
    operands does not parse as a number. *)
Theorem compute_ignores_unparsable (st : state) :
  JS.isNaN (JS.parseFloat (previousOperand st)) = true \/
  JS.isNaN (JS.parseFloat (currentOperand st)) = true ->
  compute st = st.
Proof.
  intros H. apply compute_guard, orb_true_iff, H.
Qed.

Lemma compute_ignores_unparsable_witness :
  JS.isNaN (JS.parseFloat (currentOperand (setPreviousOperand "7" initial)))
    = true /\
  compute (setPreviousOperand "7" initial) = setPreviousOperand "7" initial.
Proof.
  split; [reflexivity|].
  apply (compute_ignores_unparsable (setPreviousOperand "7" initial)).
  right. reflexivity.
Defined.

(* ================================================================= *)
(** ** [deleteNumber] *)

(** C5. With the overwrite flag set, [deleteNumber] empties the current
    operand and drops the flag; without it, the last character of the
    current operand is removed, and an empty operand stays empty. *)
Theorem deleteNumber_cases (st : state) :
  (overwrite st = true ->
   deleteNumber st =
   {| currentOperand := ""; previousOperand := previousOperand st;
      operation := operation st; overwrite := false |}) /\
  (overwrite st = false ->
   forall (s : string) (c : ascii),
     currentOperand st = s ++ String c "" ->
     deleteNumber st =
     {| currentOperand := s; previousOperand := previousOperand st;
        operation := operation st; overwrite := false |}) /\
  (overwrite st = false -> currentOperand st = "" -> deleteNumber st = st).
Proof.
  unfold deleteNumber. repeat split.
  - intros ->. reflexivity.
  - intros Ho s c Hc. rewrite Ho, Hc.
    replace (String.eqb (s ++ String c "") "") with false.
    + unfold setCurrentOperand. rewrite slice_0_minus1_snoc, Ho. reflexivity.
    + symmetry. apply String.eqb_neq. destruct s; discriminate.
  - intros -> ->. reflexivity.
Qed.

Lemma deleteNumber_cases_witness :
  deleteNumber (mkState "12.5" "3" (Some "+") true)
    = mkState "" "3" (Some "+") false /\
  deleteNumber (mkState "12.5" "3" (Some "+") false)
    = mkState "12." "3" (Some "+") false /\
  deleteNumber (mkState "" "3" (Some "+") false)
    = mkState "" "3" (Some "+") false.
Proof.
  split; [|split].
  - apply (proj1 (deleteNumber_cases (mkState "12.5" "3" (Some "+") true))).
    reflexivity.
  - apply (proj1 (proj2
             (deleteNumber_cases (mkState "12.5" "3" (Some "+") false)))
             eq_refl "12." "5"%char).
    reflexivity.
  - apply (proj2 (proj2
             (deleteNumber_cases (mkState "" "3" (Some "+") false))));
      reflexivity.
Defined.

(* ================================================================= *)
(** ** The string of a number is never empty *)

Lemma decimal_digits_aux_length (fuel : nat) (n : N) (acc : string) :
  (String.length acc <= String.length (JS.decimal_digits_aux fuel n acc))%nat.
Proof.
  revert n acc.
  induction fuel as [|fuel IH]; intros n acc; simpl; [lia|].
  destruct (n / 10 =? 0)%N; simpl; [lia|].
  specialize (IH (n / 10)%N (String (JS.digit_char (n mod 10)) acc)).
  simpl in IH. lia.
Qed.

Lemma decimal_digits_length (n : N) :
  (0 < String.length (JS.decimal_digits n))%nat.
Proof.
  unfold JS.decimal_digits. simpl.
  destruct (n / 10 =? 0)%N; simpl; [lia|].
  pose proof (decimal_digits_aux_length (N.to_nat (N.log2 n)) (n / 10)%N
                (String (JS.digit_char (n mod 10)) "")) as H.
  simpl in H. lia.
Qed.

Lemma exponent_part_length (e : Z) :
  (0 < String.length (JS.exponent_part e))%nat.
Proof. unfold JS.exponent_part. simpl. lia. Qed.

Lemma layout_length (ds : string) (n : Z) :
  (0 < String.length ds)%nat -> (0 < String.length (JS.layout ds n))%nat.
Proof.
  intros Hds. unfold JS.layout.
  pose proof (exponent_part_length (n - 1)) as He.
  repeat match goal with
         | |- context [if ?b then _ else _] => destruct b
         end;
    repeat (rewrite length_append; simpl); lia.
Qed.

Lemma Number_toString_length (x : JS.number) :
  (0 < String.length (JS.Number_toString x))%nat.
Proof.
  destruct x as [s | s | | s m e]; simpl; try lia.
  - destruct s; simpl; lia.
  - destruct (JS.shortest_decimal m e) as [d n].
    rewrite length_append.
    pose proof (layout_length (JS.decimal_digits (Z.to_N d)) n
                  (decimal_digits_length _)).
    lia.
Qed.

Lemma Number_toString_nonempty (x : JS.number) : JS.Number_toString x <> "".
Proof. apply nonempty_length, Number_toString_length. Qed.

(* ================================================================= *)
(** ** A pending operation has a previous operand *)

Lemma perform_operation_has_previous (a : action) (st : state) :
  operation_has_previous st -> operation_has_previous (perform a st).
Proof.
  unfold operation_has_previous. intros Hst.
  destruct a as [| | number | op |]; simpl.
  - (* clear *) intros H. now elim H.
  - (* deleteNumber *)
    unfold deleteNumber.
    destruct (overwrite st); [exact Hst|].
    destruct (String.eqb (currentOperand st) ""); exact Hst.
  - (* appendNumber *)
    unfold appendNumber.
    repeat match goal with
           | |- context [if ?b then _ else _] => destruct b
           end; exact Hst.
  - (* chooseOperation *)
    unfold chooseOperation.
    destruct (String.eqb (currentOperand st) "") eqn:Hcur; [exact Hst|].
    apply String.eqb_neq in Hcur.
    destruct (negb (String.eqb (previousOperand st) "")); simpl; auto.
    destruct (negb (JS.isNaN (JS.parseFloat (previousOperand st))) &&
              negb (JS.isNaN (JS.parseFloat (currentOperand st))));
      simpl; auto.
    destruct (apply_operation _ _ _); simpl; auto.
    intros _. apply Number_toString_nonempty.
  - (* compute *)
    unfold compute.
    destruct (JS.isNaN _ || JS.isNaN _); [exact Hst|].
    destruct (apply_operation _ _ _); simpl; [|exact Hst].
    intros H. now elim H.
Qed.

(** C6. Whatever is done from the initial state, with any arguments,
    an operation is pending only when the previous operand is not
    empty. *)
Theorem operation_needs_previous (actions : list action) :
  operation (run actions initial) <> None ->
  previousOperand (run actions initial) <> "".
Proof.
  change (operation_has_previous (run actions initial)).
  assert (H : operation_has_previous initial) by (intros H; now elim H).
  revert H. generalize initial.
  induction actions as [|a l IH]; intros st Hst; simpl; [exact Hst|].
  apply IH, perform_operation_has_previous, Hst.
Qed.

Lemma operation_needs_previous_witness :
  operation (run [AppendNumber "2"; ChooseOperation "+"] initial) <> None /\
  previousOperand (run [AppendNumber "2"; ChooseOperation "+"] initial) <> "".
Proof.
  split; [discriminate|].
  apply (operation_needs_previous [AppendNumber "2"; ChooseOperation "+"]).
  discriminate.
Defined.

(* ================================================================= *)
(** ** Division by zero *)

Lemma parseFloat_0 : JS.parseFloat "0" = S754_zero false.
Proof. reflexivity. Qed.

Lemma round8_infinity (s : bool) :
  round8 (S754_infinity s) = S754_infinity s.
Proof. destruct s; vm_compute; reflexivity. Qed.

(** C10. A positive previous operand divided by the current operand
    "0": [compute] stores "Infinity", clears the previous operand and
    the operation and sets the overwrite flag; the state has changed. *)
Theorem compute_division_by_zero (st : state) :
  positive_number (JS.parseFloat (previousOperand st)) = true ->
  operation st = Some division_sign ->
  currentOperand st = "0" ->
  compute st = {| currentOperand := "Infinity"; previousOperand := "";
                  operation := None; overwrite := true |} /\
  compute st <> st.
Proof.
  intros Hpos Hop Hcur.
  assert (E : compute st = {| currentOperand := "Infinity";
                              previousOperand := "";
                              operation := None; overwrite := true |}).
  { unfold compute. rewrite Hop, Hcur, parseFloat_0.
    destruct (JS.parseFloat (previousOperand st)) as [s | s | | s m e];
      try discriminate Hpos; destruct s; try discriminate Hpos;
      cbn [JS.isNaN orb apply_operation]; 
      change (String.eqb division_sign "+") with false;
      change (String.eqb division_sign "-") with false;
      change (String.eqb division_sign "*") with false;
      change (String.eqb division_sign division_sign) with true;
      cbn [orb JS.div SFdiv xorb];
      rewrite round8_infinity; reflexivity. }
  split; [exact E|].
  rewrite E. intros H. rewrite <- H in Hcur. discriminate Hcur.
Qed.

Lemma compute_division_by_zero_witness :
  compute (mkState "0" "2.5" (Some division_sign) false)
  = mkState "Infinity" "" None true.
Proof.
  apply (compute_division_by_zero
           (mkState "0" "2.5" (Some division_sign) false));
    reflexivity.
Defined.

(* ================================================================= *)
(** ** The keyboard listener *)

(** A key that lies between "0" and "9" in the order of strings begins
    with a digit. *)
Lemma digit_range_begins_with_digit (key : string) :
  JS.ge_string key "0" && JS.le_string key "9" = true ->
  begins_with_digit key = true.
Proof.
  destruct key as [|c rest]; [discriminate|].
  unfold JS.ge_string, JS.le_string, String.leb, begins_with_digit, JS.is_digit.
  cbn [String.compare]. unfold Ascii.compare.
  change (N_of_ascii "0") with 48%N. change (N_of_ascii "9") with 57%N.
  intros H. apply andb_true_iff in H. destruct H as [Hge Hle].
  apply andb_true_iff. split; apply N.leb_le.
  - destruct (N.compare_spec 48 (N_of_ascii c)) as [E | E | E];
      try discriminate Hge; lia.
  - destruct (N.compare_spec (N_of_ascii c) 57) as [E | E | E];
      try discriminate Hle; lia.
Qed.

Lemma not_in_cons_eqb (key k : string) (l : list string) :
  ~ In key (k :: l) -> String.eqb key k = false /\ ~ In key l.
Proof.
  intros H. split.
  - apply String.eqb_neq. intros ->. apply H. now left.
  - intros Hin. apply H. now right.
Qed.

Lemma single_digit_name (c : ascii) :
  JS.is_digit c = true -> In (String c "") digit_names.
Proof.
  destruct c as [[] [] [] [] [] [] [] []]; intros H;
    try discriminate H; simpl; auto 20.
Qed.

(** A key of a keyboard that passes the digit test is a digit key. *)
Lemma keyboard_digit_range (key : string) :
  keyboard_key key ->
  JS.ge_string key "0" && JS.le_string key "9" = true ->
  In key digit_names.
Proof.
  intros Hkey Hrange.
  apply digit_range_begins_with_digit in Hrange.
  destruct Hkey as [Hlen | Hnd]; [|congruence].
  destruct key as [|c [|c' key]]; try discriminate Hlen.
  now apply single_digit_name.
Qed.

(** C8. Each key of a keyboard (a single character, or a name that
    does not begin with a digit) is mapped to one operation: the digit
    keys and [.] to [appendNumber] with the key, [=] and [Enter] to
    [compute] (the only keys whose default action is prevented),
    [Backspace] to [deleteNumber], [Escape] to [clear], [+], [-], [*]
    to [chooseOperation] with the key and [/] to [chooseOperation] with
    the division sign; every other key leaves the state unchanged. *)
Theorem handleKeyDown_keyboard (key : string) (st : state) :
  keyboard_key key ->
  (In key digit_names -> handleKeyDown key st = (appendNumber key st, false)) /\
  (key = "." -> handleKeyDown key st = (appendNumber "." st, false)) /\
  (key = "=" \/ key = "Enter" -> handleKeyDown key st = (compute st, true)) /\
  (key = "Backspace" -> handleKeyDown key st = (deleteNumber st, false)) /\
  (key = "Escape" -> handleKeyDown key st = (clear st, false)) /\
  (key = "+" \/ key = "-" \/ key = "*" ->
   handleKeyDown key st = (chooseOperation key st, false)) /\
  (key = "/" -> handleKeyDown key st = (chooseOperation division_sign st, false)) /\
  (~ In key digit_names -> ~ In key command_keys ->
   handleKeyDown key st = (st, false)).
Proof.
  intros Hkey. repeat split.
  - unfold digit_names. simpl. intros H.
    repeat (destruct H as [<- | H]; [reflexivity|]). elim H.
  - intros ->. reflexivity.
  - intros [-> | ->]; reflexivity.
  - intros ->. reflexivity.
  - intros ->. reflexivity.
  - intros [-> | [-> | ->]]; reflexivity.
  - intros ->. reflexivity.
  - intros Hdig Hcmd. unfold handleKeyDown.
    destruct (JS.ge_string key "0" && JS.le_string key "9") eqn:Hrange.
    + elim Hdig. now apply keyboard_digit_range.
    + unfold command_keys in Hcmd.
      repeat match type of Hcmd with
             | ~ In _ (_ :: _) =>
                 apply not_in_cons_eqb in Hcmd;
                 let E := fresh "E" in destruct Hcmd as [E Hcmd]; rewrite E
             end.
      reflexivity.
Qed.

Lemma handleKeyDown_keyboard_witness :
  handleKeyDown "7" initial = (appendNumber "7" initial, false) /\
  handleKeyDown "Enter" initial = (compute initial, true) /\
  handleKeyDown "/" (mkState "8" "" None false)
    = (mkState "" "8" (Some division_sign) false, false) /\
  handleKeyDown "a" (mkState "8" "" None false)
    = (mkState "8" "" None false, false) /\
  handleKeyDown "Tab" (mkState "8" "" None false)
    = (mkState "8" "" None false, false).
Proof.
  split; [|split; [|split; [|split]]].
  - apply (proj1 (handleKeyDown_keyboard "7" initial (or_introl eq_refl))).
    simpl. auto 20.
  - apply (proj1 (proj2 (proj2
             (handleKeyDown_keyboard "Enter" initial (or_intror eq_refl))))).
    right. reflexivity.
  - apply (proj1 (proj2 (proj2 (proj2 (proj2 (proj2 (proj2
             (handleKeyDown_keyboard "/" (mkState "8" "" None false)
                (or_introl eq_refl))))))))).
    reflexivity.
  - apply (proj2 (proj2 (proj2 (proj2 (proj2 (proj2 (proj2
             (handleKeyDown_keyboard "a" (mkState "8" "" None false)
                (or_introl eq_refl))))))))).
    + simpl. intuition discriminate.
    + simpl. intuition discriminate.
  - apply (proj2 (proj2 (proj2 (proj2 (proj2 (proj2 (proj2
             (handleKeyDown_keyboard "Tab" (mkState "8" "" None false)
                (or_intror eq_refl))))))))).
    + simpl. intuition discriminate.
    + simpl. intuition discriminate.
Defined.

(** The hypothesis on the key is needed only for events that no
    keyboard sends: the test for a digit compares strings, so that a
    made-up key such as "1x" is appended, while "9z" is ignored. *)
Lemma made_up_key_passes_digit_test :
  ~ keyboard_key "1x" /\
  fst (handleKeyDown "1x" initial) = setCurrentOperand "1x" initial /\
  handleKeyDown "9z" initial = (initial, false).
Proof.
  split; [|split; reflexivity].
  intros [H | H]; discriminate H.
Qed.

(* ================================================================= *)
(** ** The shape of the operand strings *)

Lemma count_dots_append (s t : string) :
  count_dots (s ++ t) = (count_dots s + count_dots t)%nat.
Proof. induction s as [|c s IH]; simpl; [reflexivity | rewrite IH; lia]. Qed.

Lemma digits_and_dots_append (s t : string) :
  digits_and_dots (s ++ t) = digits_and_dots s && digits_and_dots t.
Proof.
  induction s as [|c s IH]; simpl; [reflexivity|].
  rewrite IH. apply andb_assoc.
Qed.

Lemma includes_dot_count (s : string) :
  JS.includes s "." = false -> count_dots s = 0%nat.
Proof.
  induction s as [|c s IH]; simpl; [reflexivity|].
  intros H. apply orb_false_iff in H. destruct H as [Hc Hs].
  rewrite Hc, (IH Hs). reflexivity.
Qed.

Lemma count_dots_slice (s : string) :
  (count_dots (JS.slice_0_minus1 s) <= count_dots s)%nat.
Proof.
  induction s as [|c s IH]; simpl; [lia|].
  destruct s as [|d s]; [simpl; lia|].
  change (count_dots (String c (JS.slice_0_minus1 (String d s))))
    with ((if Ascii.eqb c "." then 1 else 0) +
          count_dots (JS.slice_0_minus1 (String d s)))%nat.
  lia.
Qed.

Lemma digits_and_dots_slice (s : string) :
  digits_and_dots s = true -> digits_and_dots (JS.slice_0_minus1 s) = true.
Proof.
  induction s as [|c s IH]; simpl; [reflexivity|].
  intros H. apply andb_true_iff in H. destruct H as [Hc Hs].
  destruct s as [|d s]; [reflexivity|].
  change (digits_and_dots (String c (JS.slice_0_minus1 (String d s))))
    with ((JS.is_digit c || Ascii.eqb c ".") &&
          digits_and_dots (JS.slice_0_minus1 (String d s))).
  rewrite Hc, (IH Hs). reflexivity.
Qed.

Lemma count_dots_substring (s : string) (a b : nat) :
  (count_dots (substring a b s) <= count_dots s)%nat.
Proof.
  revert a b. induction s as [|c s IH]; intros a b.
  - destruct a, b; simpl; lia.
  - destruct a as [|a].
    + destruct b as [|b]; simpl; [lia|]. specialize (IH 0%nat b). lia.
    + simpl. specialize (IH a b). lia.
Qed.

Lemma is_digit_not_dot (c : ascii) :
  JS.is_digit c = true -> Ascii.eqb c "." = false.
Proof.
  intros H. apply Ascii.eqb_neq. intros ->. discriminate H.
Qed.

Lemma digit_char_is_digit (d : N) :
  (d < 10)%N -> JS.is_digit (JS.digit_char d) = true.
Proof.
  intros H. unfold JS.is_digit, JS.digit_char.
  rewrite N_ascii_embedding by lia.
  apply andb_true_iff. split; apply N.leb_le; lia.
Qed.

Lemma mod_10_digit (n : N) : JS.is_digit (JS.digit_char (n mod 10)) = true.
Proof. apply digit_char_is_digit, N.mod_lt. discriminate. Qed.

Lemma all_digits_count_dots (s : string) :
  all_digits s = true -> count_dots s = 0%nat.
Proof.
  induction s as [|c s IH]; simpl; [reflexivity|].
  intros H. apply andb_true_iff in H. destruct H as [Hc Hs].
  rewrite (is_digit_not_dot c Hc), (IH Hs). reflexivity.
Qed.

Lemma decimal_digits_aux_all_digits (fuel : nat) (n : N) (acc : string) :
  all_digits acc = true ->
  all_digits (JS.decimal_digits_aux fuel n acc) = true.
Proof.
  revert n acc.
  induction fuel as [|fuel IH]; intros n acc Hacc; simpl; [exact Hacc|].
  assert (H : all_digits (String (JS.digit_char (n mod 10)) acc) = true).
  { simpl. rewrite mod_10_digit, Hacc. reflexivity. }
  destruct (n / 10 =? 0)%N; [exact H | apply IH, H].
Qed.

Lemma decimal_digits_all_digits (n : N) :
  all_digits (JS.decimal_digits n) = true.
Proof. apply decimal_digits_aux_all_digits. reflexivity. Qed.

Lemma count_dots_decimal_digits (n : N) :
  count_dots (JS.decimal_digits n) = 0%nat.
Proof. apply all_digits_count_dots, decimal_digits_all_digits. Qed.

Lemma count_dots_zeros (n : nat) : count_dots (JS.zeros n) = 0%nat.
Proof. induction n as [|n IH]; simpl; [reflexivity | exact IH]. Qed.

Lemma count_dots_exponent_part (e : Z) :
  count_dots (JS.exponent_part e) = 0%nat.
Proof.
  unfold JS.exponent_part.
  change (count_dots (String "e" ?s)) with (count_dots s).
  rewrite count_dots_append, count_dots_decimal_digits.
  destruct (e <? 0); reflexivity.
Qed.

Lemma count_dots_layout (ds : string) (n : Z) :
  count_dots ds = 0%nat -> (count_dots (JS.layout ds n) <= 1)%nat.
Proof.
  intros Hds. unfold JS.layout.
  repeat match goal with
         | |- context [if ?b then _ else _] => destruct b
         end;
    repeat rewrite count_dots_append;
    rewrite ?count_dots_zeros, ?count_dots_exponent_part, ?Hds;
    repeat match goal with
           | |- context [count_dots (substring ?a ?b ds)] =>
               let H := fresh "H" in
               pose proof (count_dots_substring ds a b) as H;
               rewrite Hds in H;
               generalize dependent (count_dots (substring a b ds)); intros
           end;
    simpl; lia.
Qed.

Lemma count_dots_Number_toString (x : JS.number) :
  (count_dots (JS.Number_toString x) <= 1)%nat.
Proof.
  destruct x as [s | s | | s m e]; simpl; try lia.
  - destruct s; simpl; lia.
  - destruct (JS.shortest_decimal m e) as [d n].
    rewrite count_dots_append.
    pose proof (count_dots_layout (JS.decimal_digits (Z.to_N d)) n
                  (count_dots_decimal_digits _)).
    destruct s; simpl; lia.
Qed.

Lemma operand_shape_typed (s : string) :
  digits_and_dots s = true -> (count_dots s <= 1)%nat -> operand_shape s.
Proof. intros H1 H2. split; [exact H2 | left; exact H1]. Qed.

Lemma operand_shape_result (x : JS.number) :
  operand_shape (JS.Number_toString x).
Proof.
  split; [apply count_dots_Number_toString | right; now exists x].
Qed.

Lemma operand_shape_empty : operand_shape "".
Proof. apply operand_shape_typed; simpl; [reflexivity | lia]. Qed.

#[local] Hint Resolve operand_shape_result operand_shape_empty : calc.

Lemma digit_keys_cases (d : string) :
  In d digit_keys ->
  digits_and_dots d = true /\
  (d = "." \/ (String.eqb d "." = false /\ count_dots d = 0%nat)).
Proof.
  unfold digit_keys. simpl. intros H.
  repeat (destruct H as [<- | H]; [split; [reflexivity|]; auto|]).
  elim H.
Qed.

Lemma shape_inv_initial : shape_inv initial.
Proof. split; simpl; auto with calc. Qed.

Lemma shape_inv_clear (st : state) : shape_inv (clear st).
Proof. split; simpl; auto with calc. Qed.

Section ShapePreserved.

Variable st : state.
Hypothesis Hst : shape_inv st.

Lemma shape_inv_deleteNumber : shape_inv (deleteNumber st).
Proof using Hst.
  pose proof Hst as [Hc Hp Ht]. unfold deleteNumber.
  destruct (overwrite st) eqn:Ho.
  - split; simpl; auto with calc.
  - destruct (String.eqb (currentOperand st) ""); [exact Hst|].
    assert (Hs : digits_and_dots (JS.slice_0_minus1 (currentOperand st))
                 = true)
      by (apply digits_and_dots_slice, Ht, eq_refl).
    split; simpl; auto.
    apply operand_shape_typed; [exact Hs|].
    pose proof (count_dots_slice (currentOperand st)).
    destruct Hc as [Hc1 _]. lia.
Qed.

Lemma shape_inv_appendNumber (d : string) :
  In d digit_keys -> shape_inv (appendNumber d st).
Proof using Hst.
  intros Hd. pose proof Hst as [Hc Hp Ht].
  destruct (digit_keys_cases d Hd) as [Hdd Hdot].
  assert (Hd1 : (count_dots d <= 1)%nat).
  { destruct Hdot as [-> | [_ ->]]; simpl; lia. }
  unfold appendNumber.
  destruct (String.eqb d "." && JS.includes (currentOperand st) ".") eqn:E1;
    [exact Hst|].
  destruct (overwrite st) eqn:Ho.
  { split; simpl; auto. now apply operand_shape_typed. }
  pose proof (Ht eq_refl) as Ht'.
  destruct (String.eqb d "0" && String.eqb (currentOperand st) "0");
    [exact Hst|].
  destruct (String.eqb d "." && String.eqb (currentOperand st) "").
  { split; simpl; auto.
    apply operand_shape_typed; simpl; [reflexivity | lia]. }
  assert (Hdd' : digits_and_dots (currentOperand st ++ d) = true).
  { rewrite digits_and_dots_append, Ht', Hdd. reflexivity. }
  split; simpl; auto.
  apply operand_shape_typed; [exact Hdd'|].
  rewrite count_dots_append.
  destruct Hdot as [-> | [_ Hz]].
  - simpl in E1. rewrite (includes_dot_count _ E1). simpl. lia.
  - rewrite Hz. destruct Hc as [Hc1 _]. lia.
Qed.

Lemma shape_inv_compute : shape_inv (compute st).
Proof using Hst.
  unfold compute.
  destruct (JS.isNaN _ || JS.isNaN _); [exact Hst|].
  destruct (apply_operation _ _ _); [|exact Hst].
  split; simpl; auto with calc. discriminate.
Qed.

Lemma shape_inv_chooseOperation (op : string) :
  shape_inv (chooseOperation op st).
Proof using Hst.
  pose proof Hst as [Hc Hp Ht]. unfold chooseOperation.
  destruct (String.eqb (currentOperand st) ""); [exact Hst|].
  destruct (negb (String.eqb (previousOperand st) ""));
    [|split; simpl; auto with calc].
  destruct (negb (JS.isNaN _) && negb (JS.isNaN _));
    [|split; simpl; auto with calc].
  destruct (apply_operation _ _ _); [|exact Hst].
  split; simpl; auto with calc.
Qed.

End ShapePreserved.

Lemma shape_inv_perform (a : action) (st : state) :
  issued a -> shape_inv st -> shape_inv (perform a st).
Proof.
  intros Ha Hst. destruct Ha; simpl.
  - apply shape_inv_clear.
  - now apply shape_inv_deleteNumber.
  - now apply shape_inv_appendNumber.
  - now apply shape_inv_chooseOperation.
  - now apply shape_inv_compute.
Qed.

Lemma reachable_shape_inv (st : state) : reachable st -> shape_inv st.
Proof.
  induction 1 as [|a st _ IH Ha];
    [apply shape_inv_initial | now apply shape_inv_perform].
Qed.

(** C7. In every state that the user can reach, each of the two
    operands has at most one decimal point, and is made of digits and
    points only unless it is the string of a computed number. *)
Theorem reachable_operand_shape (st : state) :
  reachable st ->
  operand_shape (currentOperand st) /\ operand_shape (previousOperand st).
Proof.
  intros H. destruct (reachable_shape_inv st H) as [Hc Hp _].
  split; assumption.
Qed.

Lemma reachable_operand_shape_witness :
  let st := run [AppendNumber "2"; ChooseOperation "-"; AppendNumber "3";
                 Equals] initial in
  reachable st /\
  operand_shape (currentOperand st) /\ operand_shape (previousOperand st).
Proof.
  assert (H : reachable
                (run [AppendNumber "2"; ChooseOperation "-"; AppendNumber "3";
                      Equals] initial)).
  { apply reachable_run; [constructor|]. issued_actions. }
  split; [exact H|].
  exact (reachable_operand_shape _ H).
Defined.

(** The result of 2 - 3 is stored as "-1": an operand need not be made
    of digits and points. *)
Lemma negative_result_is_not_typed :
  ~ (forall st : state,
       reachable st ->
       typed_shape (currentOperand st) /\ typed_shape (previousOperand st)).
Proof.
  intros H.
  destruct (H (run [AppendNumber "2"; ChooseOperation "-"; AppendNumber "3";
                    Equals] initial)) as [[Hd _] _].
  - apply reachable_run; [constructor|]. issued_actions.
  - vm_compute in Hd. discriminate Hd.
Qed.

Lemma negative_result_state :
  run [AppendNumber "2"; ChooseOperation "-"; AppendNumber "3"; Equals]
      initial
  = {| currentOperand := "-1"; previousOperand := "";
       operation := None; overwrite := true |}.
Proof. vm_compute. reflexivity. Qed.

(* ================================================================= *)
(** ** Integers below 2^53 are numbers *)

Lemma iter_xO_value (m k : positive) :
  Zpos (Pos.iter xO m k) = Zpos m * 2 ^ Zpos k.
Proof.
  induction k as [|k IH] using Pos.peano_ind.
  - simpl. lia.
  - rewrite Pos.iter_succ, Pos2Z.inj_succ, Z.pow_succ_r by lia.
    rewrite Pos2Z.inj_xO, IH. lia.
Qed.

Lemma iter_xO_digits (m k : positive) :
  digits2_pos (Pos.iter xO m k) = (digits2_pos m + k)%positive.
Proof.
  induction k as [|k IH] using Pos.peano_ind.
  - simpl. lia.
  - rewrite Pos.iter_succ. simpl. rewrite IH. lia.
Qed.

Lemma digits2_pos_lower (p : positive) :
  2 ^ (Zpos (digits2_pos p) - 1) <= Zpos p.
Proof.
  induction p as [p IH | p IH |]; simpl digits2_pos.
  - rewrite Pos2Z.inj_succ.
    replace (Z.succ (Zpos (digits2_pos p)) - 1)
      with (Z.succ (Zpos (digits2_pos p) - 1)) by lia.
    rewrite Z.pow_succ_r by lia. lia.
  - rewrite Pos2Z.inj_succ.
    replace (Z.succ (Zpos (digits2_pos p)) - 1)
      with (Z.succ (Zpos (digits2_pos p) - 1)) by lia.
    rewrite Z.pow_succ_r by lia. lia.
  - simpl. lia.
Qed.

Lemma digits2_pos_small (p : positive) :
  Zpos p < 2 ^ 53 -> Zpos (digits2_pos p) <= 53.
Proof.
  intros Hp.
  destruct (Z_le_gt_dec (Zpos (digits2_pos p)) 53) as [H | H]; [exact H|].
  pose proof (digits2_pos_lower p) as Hl.
  assert (2 ^ 53 <= 2 ^ (Zpos (digits2_pos p) - 1))
    by (apply Z.pow_le_mono_r; lia).
  lia.
Qed.

(** A mantissa of exactly 53 bits with an exponent in range is a
    binary64 as it stands. *)
Lemma binary_round_aux_exact (s : bool) (m : positive) (e : Z) :
  Zpos (digits2_pos m) = 53 -> -1074 <= e <= 971 ->
  binary_round_aux JS.prec JS.emax s (Zpos m) e loc_Exact = S754_finite s m e.
Proof.
  intros Hd He.
  assert (Hs : shr_fexp JS.prec JS.emax (Zpos m) e loc_Exact
               = ({| shr_m := Zpos m; shr_r := false; shr_s := false |}, e)).
  { unfold shr_fexp, fexp, Zdigits2. rewrite Hd.
    replace (Z.max (53 + e - JS.prec) (emin JS.prec JS.emax) - e) with 0
      by (unfold emin, JS.prec, JS.emax; lia).
    reflexivity. }
  unfold binary_round_aux. rewrite Hs.
  cbn [shr_m loc_of_shr_record round_nearest_even]. rewrite Hs.
  cbn [shr_m].
  replace (e <=? JS.emax - JS.prec) with true; [reflexivity|].
  symmetry. apply Z.leb_le. unfold JS.emax, JS.prec. lia.
Qed.

(** The number of a positive integer below 2^53 has exactly its value:
    it is [m * 2^e] with [m = p * 2^(-e)]. *)
Lemma binary_round_small (s : bool) (p : positive) :
  Zpos p < 2 ^ 53 ->
  exists (m : positive) (e : Z),
    binary_round JS.prec JS.emax s p 0 = S754_finite s m e /\
    -52 <= e <= 0 /\ Zpos m = Zpos p * 2 ^ (- e).
Proof.
  intros Hp.
  pose proof (digits2_pos_small p Hp) as Hd.
  assert (Hd1 : 1 <= Zpos (digits2_pos p)) by lia.
  unfold binary_round.
  assert (Hf : fexp JS.prec JS.emax (Zpos (digits2_pos p) + 0)
               = Zpos (digits2_pos p) - 53).
  { unfold fexp, emin, JS.prec, JS.emax. lia. }
  rewrite Hf. unfold shl_align.
  destruct (Zpos (digits2_pos p) - 53 - 0) as [|k|k] eqn:Hk; try lia.
  - exists p, 0. split; [|split]; try lia.
    apply binary_round_aux_exact; lia.
  - exists (Pos.iter xO p k), (Zpos (digits2_pos p) - 53).
    split; [|split]; try lia.
    + apply binary_round_aux_exact; [|lia].
      rewrite iter_xO_digits. lia.
    + rewrite iter_xO_value. f_equal. f_equal. lia.
Qed.

Lemma number_of_decimal_small (neg : bool) (p : positive) :
  (Npos p < 2 ^ 53)%N ->
  exists (m : positive) (e : Z),
    JS.number_of_decimal neg (Npos p) 0 = S754_finite neg m e /\
    -52 <= e <= 0 /\ Zpos m = Zpos p * 2 ^ (- e).
Proof.
  intros Hn.
  assert (Hp : Zpos p < 2 ^ 53).
  { change (Z.of_N (Npos p) < Z.of_N (2 ^ 53)%N). lia. }
  destruct (binary_round_small neg p Hp) as (m & e & Hr & He & Hm).
  exists m, e. repeat split; try lia.
  unfold JS.number_of_decimal.
  change (0 <=? 0) with true. cbv iota.
  replace (Zpos p * 10 ^ 0) with (Zpos p) by (simpl; lia).
  destruct neg; exact Hr.
Qed.

(* ================================================================= *)
(** ** Formatting an operand for the display *)

(** An integer below 2^53 is printed as it is. *)
Lemma thousandths_integer (p m : positive) (e : Z) :
  -52 <= e <= 0 -> Zpos m = Zpos p * 2 ^ (- e) -> (Npos p < 2 ^ 53)%N ->
  JS.thousandths m e = (Npos p * 1000)%N.
Proof.
  intros He Hm Hp.
  assert (Hp' : Zpos p < 2 ^ 53).
  { change (Z.of_N (Npos p) < Z.of_N (2 ^ 53)%N). lia. }
  assert (Hn : forall num den : Z,
             0 < den -> num = Zpos p * den ->
             (if (num mod den =? 0) && (num / den <? 2 ^ 53)
              then Z.to_N (1000 * (num / den))
              else
                let '(d, n) := JS.shortest_decimal m e in
                let q := n - Z.of_nat
                               (String.length (JS.decimal_digits (Z.to_N d)))
                         + 3 in
                if 0 <=? q then Z.to_N (d * 10 ^ q)
                else Z.to_N ((2 * d + 10 ^ (- q)) / (2 * 10 ^ (- q))))
             = (Npos p * 1000)%N).
  { intros num den Hden ->.
    rewrite Z.mod_mul, Z.div_mul by lia.
    replace (0 =? 0) with true by reflexivity.
    replace (Zpos p <? 2 ^ 53) with true by (symmetry; now apply Z.ltb_lt).
    cbn [andb]. lia. }
  unfold JS.thousandths, JS.fraction_of.
  destruct (0 <=? e) eqn:E.
  - apply Z.leb_le in E. assert (e = 0) by lia. subst e.
    apply Hn; [lia|]. rewrite Hm. simpl. lia.
  - apply Hn; [|exact Hm]. apply Z.pow_pos_nonneg; lia.
Qed.

Lemma format_integer_value (s : bool) (p m : positive) (e : Z) :
  -52 <= e <= 0 -> Zpos m = Zpos p * 2 ^ (- e) -> (Npos p < 2 ^ 53)%N ->
  JS.Intl_NumberFormat_format (S754_finite s m e)
  = JS.minus_sign s ++ JS.group_thousands (JS.decimal_digits (Npos p)).
Proof.
  intros He Hm Hp. unfold JS.Intl_NumberFormat_format.
  rewrite (thousandths_integer p m e He Hm Hp).
  rewrite N.div_mul, N.Div0.mod_mul by discriminate.
  change (JS.fraction_digits 0) with "".
  rewrite append_nil_r. reflexivity.
Qed.

(** The number of an integer below 2^53, of either sign, is printed as
    the grouped digits of the integer. *)
Lemma format_small_integer (neg : bool) (n : N) :
  (n < 2 ^ 53)%N ->
  JS.Intl_NumberFormat_format (JS.number_of_decimal neg n 0)
  = JS.minus_sign neg ++ JS.group_thousands (JS.decimal_digits n).
Proof.
  intros Hn.
  destruct n as [|p]; [reflexivity|].
  destruct (number_of_decimal_small neg p Hn) as (m & e & Hr & He & Hm).
  rewrite Hr. now apply format_integer_value.
Qed.

(** [parseFloat] on a run of digits. *)

Lemma is_digit_not_white_space (c : ascii) :
  JS.is_digit c = true -> JS.is_white_space c = false.
Proof.
  unfold JS.is_digit, JS.is_white_space. intros H.
  apply andb_true_iff in H. destruct H as [H1 H2].
  apply N.leb_le in H1. apply N.leb_le in H2.
  repeat (apply orb_false_iff; split); apply N.eqb_neq; lia.
Qed.

Lemma span_digits_all (s : string) :
  all_digits s = true -> JS.span_digits s = (s, "").
Proof.
  induction s as [|c s IH]; simpl; [reflexivity|].
  intros H. apply andb_true_iff in H. destruct H as [Hc Hs].
  rewrite Hc, (IH Hs). reflexivity.
Qed.

Lemma parse_unsigned_digits (c : ascii) (s : string) :
  all_digits (String c s) = true ->
  JS.parse_unsigned false (String c s)
  = JS.number_of_decimal false (JS.digits_value (String c s)) 0.
Proof.
  intros H. unfold JS.parse_unsigned.
  assert (Hc : JS.is_digit c = true).
  { simpl in H. now apply andb_true_iff in H. }
  assert (Hi : prefix "Infinity" (String c s) = false).
  { change (prefix "Infinity" (String c s))
      with (if ascii_dec "I" c then prefix "nfinity" s else false).
    destruct (ascii_dec "I" c) as [<- | _]; [discriminate Hc | reflexivity]. }
  rewrite Hi, (span_digits_all _ H).
  cbn [JS.span_fraction]. rewrite append_nil_r. reflexivity.
Qed.

Lemma parseFloat_digits (s : string) :
  s <> "" -> all_digits s = true ->
  JS.parseFloat s = JS.number_of_decimal false (JS.digits_value s) 0.
Proof.
  intros Hne H. destruct s as [|c s]; [now elim Hne|].
  assert (Hc : JS.is_digit c = true).
  { simpl in H. now apply andb_true_iff in H. }
  unfold JS.parseFloat. cbn [JS.trim_start].
  rewrite (is_digit_not_white_space c Hc).
  replace (Ascii.eqb c "-") with false
    by (symmetry; apply Ascii.eqb_neq; intros ->; discriminate Hc).
  replace (Ascii.eqb c "+") with false
    by (symmetry; apply Ascii.eqb_neq; intros ->; discriminate Hc).
  now apply parse_unsigned_digits.
Qed.

(** [split] on strings with no or one point. *)

Lemma split_no_dot (s : string) :
  count_dots s = 0%nat -> JS.split s "." = [s].
Proof.
  induction s as [|c s IH]; simpl; [reflexivity|].
  destruct (Ascii.eqb c "."); simpl; [discriminate|].
  intros H. rewrite (IH H). reflexivity.
Qed.

Lemma split_one_dot (s t : string) :
  count_dots s = 0%nat -> count_dots t = 0%nat ->
  JS.split (s ++ "." ++ t) "." = [s; t].
Proof.
  intros Hs Ht. induction s as [|c s IH]; simpl.
  - rewrite (split_no_dot t Ht). reflexivity.
  - simpl in Hs. destruct (Ascii.eqb c "."); simpl in Hs; [discriminate|].
    simpl in IH. rewrite (IH Hs). reflexivity.
Qed.

(** [parseFloat] on a run of digits with a minus sign. *)
Lemma parseFloat_signed_digits (neg : bool) (ds : string) :
  ds <> "" -> all_digits ds = true ->
  JS.parseFloat (JS.minus_sign neg ++ ds)
  = JS.number_of_decimal neg (JS.digits_value ds) 0.
Proof.
  intros Hne H. destruct neg; [|now apply parseFloat_digits].
  destruct ds as [|c s]; [now elim Hne|].
  unfold JS.parseFloat. cbn [JS.minus_sign append JS.trim_start].
  change (JS.is_white_space "-") with false. cbv iota.
  change (Ascii.eqb "-" "-") with true. cbv iota.
  unfold JS.parse_unsigned.
  assert (Hc : JS.is_digit c = true).
  { simpl in H. now apply andb_true_iff in H. }
  assert (Hi : prefix "Infinity" (String c s) = false).
  { change (prefix "Infinity" (String c s))
      with (if ascii_dec "I" c then prefix "nfinity" s else false).
    destruct (ascii_dec "I" c) as [<- | _]; [discriminate Hc | reflexivity]. }
  rewrite Hi, (span_digits_all _ H).
  cbn [JS.span_fraction]. rewrite append_nil_r. reflexivity.
Qed.

Lemma count_dots_signed (neg : bool) (ds : string) :
  all_digits ds = true -> count_dots (JS.minus_sign neg ++ ds) = 0%nat.
Proof.
  intros H. rewrite count_dots_append, (all_digits_count_dots ds H).
  destruct neg; reflexivity.
Qed.

(* ================================================================= *)
(** ** Thousands separators *)

Lemma append_assoc (s t u : string) : (s ++ t) ++ u = s ++ t ++ u.
Proof. induction s as [|c s IH]; simpl; [reflexivity | now rewrite IH]. Qed.

Lemma decimal_digits_aux_acc (fuel : nat) (n : N) (acc : string) :
  JS.decimal_digits_aux fuel n acc = JS.decimal_digits_aux fuel n "" ++ acc.
Proof.
  revert n acc. induction fuel as [|fuel IH]; intros n acc; [reflexivity|].
  simpl. destruct (n / 10 =? 0)%N; [reflexivity|].
  rewrite (IH _ (String _ acc)), (IH _ (String _ "")), append_assoc.
  reflexivity.
Qed.

(** Enough fuel is as good as more. *)
Lemma decimal_digits_aux_fuel (f1 f2 : nat) (n : N) (acc : string) :
  (n < 2 ^ N.of_nat (S f1))%N -> (n < 2 ^ N.of_nat (S f2))%N ->
  JS.decimal_digits_aux (S f1) n acc = JS.decimal_digits_aux (S f2) n acc.
Proof.
  revert f2 n acc. induction f1 as [|f1 IH]; intros f2 n acc H1 H2.
  - assert (Hn : (n / 10 = 0)%N).
    { apply N.div_small. change (2 ^ N.of_nat 1)%N with 2%N in H1. lia. }
    simpl. rewrite Hn. reflexivity.
  - cbn [JS.decimal_digits_aux].
    destruct (n / 10 =? 0)%N eqn:E; [reflexivity|].
    apply N.eqb_neq in E.
    assert (Hn : (10 <= n)%N).
    { destruct (N.lt_ge_cases n 10) as [Hlt | Hge]; [|exact Hge].
      elim E. now apply N.div_small. }
    destruct f2 as [|f2].
    { change (2 ^ N.of_nat 1)%N with 2%N in H2. lia. }
    change (JS.decimal_digits_aux (S f1) (n / 10)
              (String (JS.digit_char (n mod 10)) acc)
            = JS.decimal_digits_aux (S f2) (n / 10)
                (String (JS.digit_char (n mod 10)) acc)).
    rewrite Nat2N.inj_succ, N.pow_succ_r' in H1, H2.
    apply IH; apply N.Div0.div_lt_upper_bound; lia.
Qed.

Lemma log2_fuel (n : N) : (n < 2 ^ N.of_nat (S (N.to_nat (N.log2 n))))%N.
Proof.
  rewrite Nat2N.inj_succ, N2Nat.id.
  destruct n as [|p]; [reflexivity|].
  apply N.log2_spec. reflexivity.
Qed.

Lemma decimal_digits_small (n : N) :
  (n < 10)%N -> JS.decimal_digits n = String (JS.digit_char n) "".
Proof.
  intros Hn. unfold JS.decimal_digits. cbn [JS.decimal_digits_aux].
  rewrite (N.div_small n 10 Hn), (N.mod_small n 10 Hn). reflexivity.
Qed.

(** The digits of [n] are those of [n / 10] and the last one. *)
Lemma decimal_digits_step (n : N) :
  (10 <= n)%N ->
  JS.decimal_digits n
  = JS.decimal_digits (n / 10) ++ String (JS.digit_char (n mod 10)) "".
Proof.
  intros Hn.
  pose proof (log2_fuel n) as Hf.
  pose proof (log2_fuel (n / 10)) as Hf10.
  unfold JS.decimal_digits.
  destruct (N.to_nat (N.log2 n)) as [|k] eqn:Hk.
  { change (2 ^ N.of_nat 1)%N with 2%N in Hf. lia. }
  cbn [JS.decimal_digits_aux].
  replace (n / 10 =? 0)%N with false.
  2:{ symmetry. apply N.eqb_neq. intros H0.
      pose proof (N.Div0.div_mod n 10).
      pose proof (N.mod_lt n 10 ltac:(discriminate)). lia. }
  change (JS.decimal_digits_aux (S k) (n / 10)
            (String (JS.digit_char (n mod 10)) "")
          = JS.decimal_digits_aux (S (N.to_nat (N.log2 (n / 10)))) (n / 10) ""
            ++ String (JS.digit_char (n mod 10)) "").
  rewrite decimal_digits_aux_acc. f_equal.
  apply decimal_digits_aux_fuel; [|exact Hf10].
  rewrite Nat2N.inj_succ, N.pow_succ_r' in Hf.
  apply N.Div0.div_lt_upper_bound. lia.
Qed.

Lemma decimal_digits_below_1000 (n : N) :
  (n < 1000)%N -> (String.length (JS.decimal_digits n) <= 3)%nat.
Proof.
  intros Hn.
  destruct (N.lt_ge_cases n 10) as [H1 | H1].
  { rewrite decimal_digits_small by exact H1. simpl. lia. }
  rewrite decimal_digits_step by exact H1.
  assert (Hq : (n / 10 < 100)%N) by (apply N.Div0.div_lt_upper_bound; lia).
  destruct (N.lt_ge_cases (n / 10) 10) as [H2 | H2].
  { rewrite decimal_digits_small by exact H2. simpl. lia. }
  rewrite (decimal_digits_step (n / 10)) by exact H2.
  assert (Hqq : (n / 10 / 10 < 10)%N)
    by (apply N.Div0.div_lt_upper_bound; lia).
  rewrite decimal_digits_small by exact Hqq. simpl. lia.
Qed.

Lemma thousand_arith (n : N) :
  (n / 10 / 10 / 10 = n / 1000)%N /\
  ((n / 10 / 10) mod 10 = n mod 1000 / 100)%N /\
  ((n / 10) mod 10 = (n mod 1000 / 10) mod 10)%N /\
  (n mod 10 = (n mod 1000) mod 10)%N.
Proof.
  rewrite !N.Div0.div_div. change (10 * 10 * 10)%N with 1000%N.
  change (10 * 10)%N with 100%N.
  pose proof (N.Div0.div_mod n 1000) as H.
  pose proof (N.mod_lt n 1000 ltac:(discriminate)) as Hlt.
  set (q := (n / 1000)%N) in *. set (r := (n mod 1000)%N) in *.
  assert (Hn : n = (r + q * 1000)%N) by lia.
  split; [reflexivity|]. split; [|split].
  - rewrite Hn at 1.
    replace (r + q * 1000)%N with (r + (q * 10) * 100)%N by lia.
    rewrite N.div_add by discriminate.
    rewrite N.Div0.mod_add.
    apply N.mod_small. apply N.Div0.div_lt_upper_bound. lia.
  - rewrite Hn at 1.
    replace (r + q * 1000)%N with (r + (q * 100) * 10)%N by lia.
    rewrite N.div_add by discriminate.
    replace (q * 100)%N with ((q * 10) * 10)%N by lia.
    apply N.Div0.mod_add.
  - rewrite Hn at 1.
    replace (r + q * 1000)%N with (r + (q * 100) * 10)%N by lia.
    apply N.Div0.mod_add.
Qed.

Lemma decimal_digits_thousand (n : N) :
  (1000 <= n)%N ->
  JS.decimal_digits n = JS.decimal_digits (n / 1000) ++ three_digits (n mod 1000).
Proof.
  intros Hn.
  assert (H1 : (10 <= n)%N) by lia.
  assert (H2 : (10 <= n / 10)%N) by (apply N.div_le_lower_bound; lia).
  assert (H3 : (10 <= n / 10 / 10)%N).
  { rewrite N.Div0.div_div. apply N.div_le_lower_bound; lia. }
  rewrite (decimal_digits_step n H1), (decimal_digits_step _ H2),
          (decimal_digits_step _ H3).
  destruct (thousand_arith n) as (E1 & E2 & E3 & E4).
  rewrite E1, E2, E3, E4, !append_assoc. reflexivity.
Qed.

Lemma group_thousands_short (s : string) :
  (String.length s <= 3)%nat -> JS.group_thousands s = s.
Proof.
  destruct s as [|a [|b [|c [|d s]]]]; simpl; intros H; try reflexivity.
  lia.
Qed.

Lemma group_thousands_append (s t : string) :
  s <> "" -> String.length t = 3%nat ->
  JS.group_thousands (s ++ t) = JS.group_thousands s ++ "," ++ t.
Proof.
  intros Hs Ht. induction s as [|c s IH]; [now elim Hs|].
  destruct s as [|d s].
  - cbn [append JS.group_thousands]. rewrite Ht.
    rewrite (group_thousands_short t) by lia. reflexivity.
  - specialize (IH ltac:(discriminate)).
    change (String c (String d s) ++ t) with (String c (String d s ++ t)).
    cbn [JS.group_thousands].
    rewrite IH, length_append, Ht.
    replace ((String.length (String d s) + 3) mod 3)%nat
      with (String.length (String d s) mod 3)%nat
      by (rewrite <- (Nat.Div0.mod_add _ 1 3); f_equal; lia).
    replace (Nat.ltb 0 (String.length (String d s) + 3)) with true
      by (symmetry; apply Nat.ltb_lt; lia).
    replace (Nat.ltb 0 (String.length (String d s))) with true
      by (symmetry; apply Nat.ltb_lt; simpl; lia).
    cbn [andb].
    destruct (Nat.eqb _ 0); reflexivity.
Qed.

Lemma group_thousands_with_separators_aux (fuel : nat) (n : N) :
  (n < 2 ^ N.of_nat fuel)%N ->
  JS.group_thousands (JS.decimal_digits n) = with_separators_aux fuel n.
Proof.
  revert n. induction fuel as [|fuel IH]; intros n Hn.
  - simpl in Hn. assert (n = 0%N) by lia. subst n. reflexivity.
  - cbn [with_separators_aux].
    destruct (n <? 1000)%N eqn:E.
    + apply N.ltb_lt in E.
      apply group_thousands_short, decimal_digits_below_1000, E.
    + apply N.ltb_ge in E.
      rewrite (decimal_digits_thousand n E).
      rewrite group_thousands_append.
      * rewrite IH; [reflexivity|].
        rewrite Nat2N.inj_succ, N.pow_succ_r' in Hn.
        apply N.Div0.div_lt_upper_bound. lia.
      * apply nonempty_length, decimal_digits_length.
      * reflexivity.
Qed.

(** The grouping of the digit string by position is the grouping of
    the number by thousands. *)
Lemma group_thousands_with_separators (n : N) :
  JS.group_thousands (JS.decimal_digits n) = with_separators n.
Proof. apply group_thousands_with_separators_aux, log2_fuel. Qed.

Lemma with_separators_examples :
  with_separators 0 = "0" /\
  with_separators 999 = "999" /\
  with_separators 1000 = "1,000" /\
  with_separators 1002003 = "1,002,003".
Proof. repeat split; reflexivity. Qed.

(* ================================================================= *)
(** ** The display format of an operand *)

Lemma formatOperand_pieces (ip dec : string) :
  ip <> "" -> count_dots ip = 0%nat -> count_dots dec = 0%nat ->
  formatOperand (Some ip)
  = Some (JS.Intl_NumberFormat_format (JS.parseFloat ip)) /\
  formatOperand (Some (ip ++ "." ++ dec))
  = Some (JS.Intl_NumberFormat_format (JS.parseFloat ip) ++ "." ++ dec).
Proof.
  intros Hne Hip Hdec. destruct ip as [|c ip]; [now elim Hne|]. split.
  - unfold formatOperand. rewrite (split_no_dot _ Hip). reflexivity.
  - change (String c ip ++ "." ++ dec)
      with (String c (ip ++ "." ++ dec)) at 1.
    unfold formatOperand.
    change (String c (ip ++ "." ++ dec)) with (String c ip ++ "." ++ dec).
    rewrite (split_one_dot _ _ Hip Hdec). reflexivity.
Qed.

(** C9. For an operand with at most one point whose integer part is a
    non-empty run of digits, with or without a minus sign,
    [formatOperand] gives the rendering of the binary64 number nearest
    to the integer part and, when there is a point, the point and the
    decimals as they are.  Whenever the value of the integer part is
    below 2^53 that rendering is the integer part itself: its sign and
    its value written with thousands separators. *)
Theorem formatOperand_integer_part (neg : bool) (ds dec : string) :
  ds <> "" -> all_digits ds = true -> count_dots dec = 0%nat ->
  let ip := JS.minus_sign neg ++ ds in
  let rendering :=
    JS.Intl_NumberFormat_format
      (JS.number_of_decimal neg (JS.digits_value ds) 0) in
  formatOperand (Some ip) = Some rendering /\
  formatOperand (Some (ip ++ "." ++ dec)) = Some (rendering ++ "." ++ dec) /\
  ((JS.digits_value ds < 2 ^ 53)%N ->
   rendering = rendered_integer_part neg ds).
Proof.
  intros Hne Hd Hdec ip rendering.
  assert (Hip : ip <> "").
  { unfold ip. destruct neg; [discriminate|]. exact Hne. }
  destruct (formatOperand_pieces ip dec Hip (count_dots_signed neg ds Hd) Hdec)
    as [H1 H2].
  unfold ip in H1, H2.
  rewrite (parseFloat_signed_digits neg ds Hne Hd) in H1, H2.
  repeat split; [exact H1 | exact H2 |].
  intros Hv. unfold rendering, rendered_integer_part.
  rewrite (format_small_integer neg _ Hv), group_thousands_with_separators.
  reflexivity.
Qed.

Lemma formatOperand_integer_part_witness :
  formatOperand (Some "-1234") = Some "-1,234" /\
  formatOperand (Some "-1234.50") = Some "-1,234.50".
Proof.
  destruct (formatOperand_integer_part true "1234" "50") as (H1 & H2 & H3).
  - discriminate.
  - reflexivity.
  - reflexivity.
  - assert (E : JS.Intl_NumberFormat_format
                  (JS.number_of_decimal true (JS.digits_value "1234") 0)
                = "-1,234").
    { rewrite H3; [reflexivity | vm_compute; reflexivity]. }
    rewrite E in H1, H2. split; [exact H1 | exact H2].
Defined.

(** From 2^53 on an integer part need not be a binary64: sixteen typed
    digits are displayed with another last digit. *)
Lemma integer_part_above_2_53_is_rounded :
  currentOperand
    (run (map (fun c => AppendNumber (String c ""))
              (list_ascii_of_string "9007199254740993")) initial)
    = "9007199254740993" /\
  all_digits "9007199254740993" = true /\
  rendered_integer_part false "9007199254740993" = "9,007,199,254,740,993" /\
  formatOperand (Some "9007199254740993") = Some "9,007,199,254,740,992" /\
  formatOperand (Some "9007199254740993")
    <> Some (rendered_integer_part false "9007199254740993").
Proof. vm_compute. repeat split; try reflexivity. discriminate. Qed.

(** A result in exponent notation has no integer part to group: the
    result of 1 / 10000000 is displayed as "0". *)
Lemma exponent_result_display :
  let st :=
    run [AppendNumber "1"; ChooseOperation division_sign; AppendNumber "1";
         AppendNumber "0"; AppendNumber "0"; AppendNumber "0";
         AppendNumber "0"; AppendNumber "0"; AppendNumber "0";
         AppendNumber "0"; Equals] initial in
  currentOperand st = "1e-7" /\
  formatOperand (Some (currentOperand st)) = Some "0".
Proof. vm_compute. split; reflexivity. Qed.

(** The operand "." that a decimal point typed over a result leaves is
    displayed as "NaN.". *)
Lemma lone_dot_display : formatOperand (Some ".") = Some "NaN.".
Proof. reflexivity. Qed.

(** Leading zeros of the integer part are not displayed. *)
Lemma leading_zero_is_dropped :
  currentOperand (run [AppendNumber "0"; AppendNumber "7"] initial) = "07" /\
  formatOperand (Some "07") = Some "7".
Proof. vm_compute. split; reflexivity. Qed.

(* ================================================================= *)
(** ** The digits of a number read back as the number *)

Lemma digit_value_digit_char (d : N) :
  (d < 10)%N -> JS.digit_value (JS.digit_char d) = d.
Proof.
  intros H. unfold JS.digit_value, JS.digit_char.
  rewrite N_ascii_embedding by lia. lia.
Qed.

Lemma decimal_digits_aux_value (fuel : nat) (n : N) (acc : string) :
  (n < 2 ^ N.of_nat fuel)%N ->
  JS.digits_value_from 0 (JS.decimal_digits_aux fuel n acc)
  = JS.digits_value_from n acc.
Proof.
  revert n acc. induction fuel as [|fuel IH]; intros n acc Hn.
  - simpl in Hn. assert (n = 0%N) by lia. subst n. reflexivity.
  - assert (Hstep : JS.digits_value_from (n / 10)
                      (String (JS.digit_char (n mod 10)) acc)
                    = JS.digits_value_from n acc).
    { cbn [JS.digits_value_from].
      rewrite digit_value_digit_char by (apply N.mod_lt; discriminate).
      f_equal. pose proof (N.Div0.div_mod n 10). lia. }
    simpl JS.decimal_digits_aux.
    destruct (n / 10 =? 0)%N eqn:E.
    + apply N.eqb_eq in E. rewrite <- Hstep, E. reflexivity.
    + rewrite IH; [exact Hstep|].
      rewrite Nat2N.inj_succ, N.pow_succ_r' in Hn.
      apply N.Div0.div_lt_upper_bound. lia.
Qed.

Lemma decimal_digits_value (n : N) :
  JS.digits_value (JS.decimal_digits n) = n.
Proof.
  unfold JS.digits_value, JS.decimal_digits.
  rewrite decimal_digits_aux_value; [reflexivity|].
  rewrite Nat2N.inj_succ, N2Nat.id.
  destruct n as [|p]; [reflexivity|].
  apply N.log2_spec. reflexivity.
Qed.

Lemma group_thousands_examples :
  JS.group_thousands "7" = "7" /\
  JS.group_thousands "123" = "123" /\
  JS.group_thousands "1234" = "1,234" /\
  JS.group_thousands "1234567" = "1,234,567".
Proof. repeat split; reflexivity. Qed.

(* ================================================================= *)
(** ** The runtime model on known values *)

Lemma parseFloat_examples :
  JS.parseFloat "0.1" = S754_finite false 7205759403792794 (-56) /\
  JS.parseFloat "  -12.5e2x" = JS.number_of_decimal true 1250 0 /\
  JS.parseFloat "." = JS.NaN /\
  JS.parseFloat ".5" = JS.parseFloat "0.5" /\
  JS.parseFloat "1.2.3" = JS.parseFloat "1.2" /\
  JS.parseFloat "Infinity" = JS.Infinity /\
  JS.parseFloat "-1" = JS.number_of_decimal true 1 0.
Proof. vm_compute. repeat split; reflexivity. Qed.

Lemma Number_toString_examples :
  JS.Number_toString (JS.add (JS.parseFloat "0.1") (JS.parseFloat "0.2"))
    = "0.30000000000000004" /\
  JS.Number_toString (JS.parseFloat "1e21") = "1e+21" /\
  JS.Number_toString (JS.parseFloat "0.0000001") = "1e-7" /\
  JS.Number_toString (JS.parseFloat "123456789012345678000")
    = "123456789012345680000" /\
  JS.Number_toString (JS.div (JS.parseFloat "0") (JS.parseFloat "0")) = "NaN".
Proof. vm_compute. repeat split; reflexivity. Qed.

(** Rounding to eight places hides the noise of binary fractions. *)
Lemma compute_rounds_to_8_places :
  currentOperand (compute (mkState "0.2" "0.1" (Some "+") false)) = "0.3" /\
  currentOperand (compute (mkState "3" "2" (Some division_sign) false))
    = "0.66666667".
Proof. vm_compute. split; reflexivity. Qed.

(* ================================================================= *)
(** ** Pressing [=] or an operator twice *)

(** When [compute] stores a result, it is the state below. *)
Lemma compute_cases (st : state) :
  compute st = st \/
  exists result : string,
    compute st = {| currentOperand := result; previousOperand := "";
                    operation := None; overwrite := true |}.
Proof.
  unfold compute.
  destruct (JS.isNaN _ || JS.isNaN _); [now left|].
  destruct (apply_operation _ _ _) as [computation|]; [right | now left].
  now exists (JS.Number_toString (round8 computation)).
Qed.

(** X1. [compute] is idempotent: a second [=] changes nothing, as the
    first one has emptied the previous operand. *)
Theorem compute_idempotent (st : state) : compute (compute st) = compute st.
Proof.
  destruct (compute_cases st) as [E | [result E]]; rewrite E.
  - exact E.
  - apply compute_with_empty_operand. now left.
Qed.

(** X2. An operator pressed right after an operator is ignored: the
    first one has emptied the current operand (or was itself ignored),
    and the pending operation cannot be changed any more. *)
Theorem chooseOperation_twice (op1 op2 : string) (st : state) :
  chooseOperation op2 (chooseOperation op1 st) = chooseOperation op1 st.
Proof.
  assert (Hempty : forall s : state,
             currentOperand s = "" -> chooseOperation op2 s = s).
  { intros s Hs. unfold chooseOperation. rewrite Hs. reflexivity. }
  unfold chooseOperation at 2 3.
  destruct (String.eqb (currentOperand st) "") eqn:Hcur.
  { apply Hempty. now apply String.eqb_eq. }
  destruct (negb (String.eqb (previousOperand st) "")) eqn:Hprev;
    [|now apply Hempty].
  destruct (negb (JS.isNaN (JS.parseFloat (previousOperand st))) &&
            negb (JS.isNaN (JS.parseFloat (currentOperand st)))) eqn:Hnum;
    [|now apply Hempty].
  destruct (apply_operation (operation st)
              (JS.parseFloat (previousOperand st))
              (JS.parseFloat (currentOperand st))) eqn:Hop;
    [now apply Hempty|].
  unfold chooseOperation. rewrite Hcur, Hprev, Hnum, Hop. reflexivity.
Qed.

(** X3. After a result has been stored, [deleteNumber] brings the
    component back to its initial state. *)
Theorem deleteNumber_after_compute (st : state) :
  compute st <> st -> deleteNumber (compute st) = initial.
Proof.
  intros H. destruct (compute_cases st) as [E | [result E]];
    [now elim H|].
  rewrite E. reflexivity.
Qed.

Lemma deleteNumber_after_compute_witness :
  compute (mkState "3" "2" (Some "+") false)
    <> mkState "3" "2" (Some "+") false /\
  deleteNumber (compute (mkState "3" "2" (Some "+") false)) = initial.
Proof.
  assert (H : compute (mkState "3" "2" (Some "+") false)
              <> mkState "3" "2" (Some "+") false).
  { vm_compute. discriminate. }
  split; [exact H|].
  exact (deleteNumber_after_compute _ H).
Defined.

(* ================================================================= *)
(** ** What the handlers leave alone *)

(** X4. Typing and deleting never touch the previous operand and the
    pending operation, and choosing an operation never touches the
    overwrite flag. *)
Theorem handlers_frame (d : string) (st : state) :
  previousOperand (appendNumber d st) = previousOperand st /\
  operation (appendNumber d st) = operation st /\
  previousOperand (deleteNumber st) = previousOperand st /\
  operation (deleteNumber st) = operation st /\
  overwrite (chooseOperation d st) = overwrite st.
Proof.
  unfold appendNumber, deleteNumber, chooseOperation.
  repeat split;
    repeat match goal with
           | |- context [if ?b then _ else _] => destruct b
           | |- context [match ?o with Some _ => _ | None => _ end] =>
               destruct o
           end; reflexivity.
Qed.

(* ================================================================= *)
(** ** Backspace undoes a keystroke *)

Lemma state_eta (st : state) :
  {| currentOperand := currentOperand st;
     previousOperand := previousOperand st;
     operation := operation st; overwrite := overwrite st |} = st.
Proof. destruct st; reflexivity. Qed.

(** X5. Without the overwrite flag, [deleteNumber] undoes
    [appendNumber] for every digit key, except in the two cases where
    the key is not simply appended: "0" on the operand "0" and "." on an
    empty operand (a second "." is ignored and so undone by nothing). *)
Theorem deleteNumber_undoes_appendNumber (d : string) (st : state) :
  In d digit_keys ->
  overwrite st = false ->
  ~ (d = "0" /\ currentOperand st = "0") ->
  ~ (d = "." /\ (currentOperand st = "" \/
                 JS.includes (currentOperand st) "." = true)) ->
  deleteNumber (appendNumber d st) = st.
Proof.
  intros Hd Ho H0 Hdot.
  assert (Hsingle : exists c : ascii, d = String c "").
  { unfold digit_keys in Hd. simpl in Hd.
    repeat (destruct Hd as [<- | Hd]; [eexists; reflexivity|]). elim Hd. }
  destruct Hsingle as [c ->].
  assert (Happ : appendNumber (String c "") st
                 = setCurrentOperand (currentOperand st ++ String c "") st).
  { destruct (String.eqb (String c "") ".") eqn:E1.
    - apply String.eqb_eq in E1. injection E1 as ->.
      unfold appendNumber. rewrite Ho.
      destruct (JS.includes (currentOperand st) ".") eqn:E2;
        [elim Hdot; auto|].
      change (String.eqb "." ".") with true.
      change (String.eqb "." "0") with false.
      cbn [andb].
      destruct (String.eqb (currentOperand st) "") eqn:E3; [|reflexivity].
      apply String.eqb_eq in E3. elim Hdot; auto.
    - unfold appendNumber. rewrite E1, Ho. cbn [andb].
      destruct (String.eqb (String c "") "0") eqn:E4; [|reflexivity].
      apply String.eqb_eq in E4.
      destruct (String.eqb (currentOperand st) "0") eqn:E5; [|reflexivity].
      apply String.eqb_eq in E5. elim H0; auto. }
  rewrite Happ. unfold deleteNumber, setCurrentOperand. simpl.
  rewrite Ho.
  replace (String.eqb (currentOperand st ++ String c "") "") with false
    by (symmetry; apply String.eqb_neq; destruct (currentOperand st);
        discriminate).
  rewrite slice_0_minus1_snoc, <- Ho. apply state_eta.
Qed.

Lemma deleteNumber_undoes_appendNumber_witness :
  deleteNumber (appendNumber "." (mkState "12" "3" (Some "+") false))
  = mkState "12" "3" (Some "+") false.
Proof.
  apply (deleteNumber_undoes_appendNumber "."
           (mkState "12" "3" (Some "+") false)).
  - simpl. auto 20.
  - reflexivity.
  - intros [H _]. discriminate H.
  - intros [_ [H | H]]; discriminate H.
Defined.

(* ================================================================= *)
(** ** More invariants of the runs *)

Lemma perform_previous_has_operation (a : action) (st : state) :
  previous_has_operation st -> previous_has_operation (perform a st).
Proof.
  unfold previous_has_operation. intros Hst.
  destruct a as [| | number | op |]; simpl.
  - intros H. now elim H.
  - unfold deleteNumber.
    destruct (overwrite st); [exact Hst|].
    destruct (String.eqb (currentOperand st) ""); exact Hst.
  - unfold appendNumber.
    repeat match goal with
           | |- context [if ?b then _ else _] => destruct b
           end; exact Hst.
  - unfold chooseOperation.
    destruct (String.eqb (currentOperand st) ""); [exact Hst|].
    destruct (negb (String.eqb (previousOperand st) ""));
      [|simpl; discriminate].
    destruct (negb (JS.isNaN _) && negb (JS.isNaN _));
      [|simpl; discriminate].
    destruct (apply_operation _ _ _); [simpl; discriminate | exact Hst].
  - unfold compute.
    destruct (JS.isNaN _ || JS.isNaN _); [exact Hst|].
    destruct (apply_operation _ _ _); [|exact Hst].
    simpl. intros H. now elim H.
Qed.

(** X6. Whatever is done from the initial state, with any arguments, a
    previous operand is there only while an operation is pending:
    [compute] and [clear] empty both, [chooseOperation] sets both. *)
Theorem previous_needs_operation (actions : list action) :
  previousOperand (run actions initial) <> "" ->
  operation (run actions initial) <> None.
Proof.
  change (previous_has_operation (run actions initial)).
  assert (H : previous_has_operation initial) by (intros H; now elim H).
  revert H. generalize initial.
  induction actions as [|a l IH]; intros st Hst; simpl; [exact Hst|].
  apply IH, perform_previous_has_operation, Hst.
Qed.

Lemma previous_needs_operation_witness :
  previousOperand (run [AppendNumber "2"; ChooseOperation "+"] initial) <> "" /\
  operation (run [AppendNumber "2"; ChooseOperation "+"] initial) <> None.
Proof.
  split; [discriminate|].
  apply (previous_needs_operation [AppendNumber "2"; ChooseOperation "+"]).
  discriminate.
Defined.

Lemma known_operation_perform (a : action) (st : state) :
  issued a -> known_operation st -> known_operation (perform a st).
Proof.
  intros Ha Hst. destruct Ha as [| | d Hd | op Hop |]; simpl.
  - now left.
  - unfold deleteNumber, known_operation.
    destruct (overwrite st); [exact Hst|].
    destruct (String.eqb (currentOperand st) ""); exact Hst.
  - unfold appendNumber, known_operation.
    repeat match goal with
           | |- context [if ?b then _ else _] => destruct b
           end; exact Hst.
  - assert (Hnew : forall s : state,
               known_operation (setCurrentOperand "" (setOperation (Some op) s))).
    { intros s. right. now exists op. }
    unfold chooseOperation.
    destruct (String.eqb (currentOperand st) ""); [exact Hst|].
    destruct (negb (String.eqb (previousOperand st) "")); [|apply Hnew].
    destruct (negb (JS.isNaN _) && negb (JS.isNaN _)); [|apply Hnew].
    destruct (apply_operation _ _ _); [apply Hnew | exact Hst].
  - unfold compute.
    destruct (JS.isNaN _ || JS.isNaN _); [exact Hst|].
    destruct (apply_operation _ _ _); [now left | exact Hst].
Qed.

(** X7. In every state that the user can reach the pending operation,
    if there is one, is [+], [-], [*] or the division sign: the
    [default] branch of the [switch] and its case ['/'] are never taken
    with an operation pending. *)
Theorem reachable_known_operation (st : state) :
  reachable st -> known_operation st.
Proof.
  induction 1 as [|a st _ IH Ha]; [now left|].
  now apply known_operation_perform.
Qed.

Lemma reachable_known_operation_witness :
  known_operation
    (run [AppendNumber "8"; ChooseOperation division_sign] initial).
Proof.
  apply reachable_known_operation.
  apply reachable_run; [constructor|]. issued_actions.
Defined.

(** The operand of a state without the overwrite flag does not begin
    with two zeros. *)
Lemma begins_with_00_slice (s : string) :
  begins_with_00 s = false -> begins_with_00 (JS.slice_0_minus1 s) = false.
Proof.
  destruct s as [|a [|b [|c s]]]; try reflexivity.
  intros H. exact H.
Qed.

Lemma begins_with_00_append (s : string) (c : ascii) :
  begins_with_00 s = false ->
  ~ (s = "0" /\ c = "0"%char) ->
  begins_with_00 (s ++ String c "") = false.
Proof.
  intros Hs Hn. destruct s as [|a [|b s]]; [reflexivity | | exact Hs].
  simpl. apply andb_false_iff.
  destruct (Ascii.eqb a "0") eqn:Ea; [right | now left].
  destruct (Ascii.eqb c "0") eqn:Ec; [|reflexivity].
  apply Ascii.eqb_eq in Ea, Ec. subst. elim Hn. auto.
Qed.

Lemma digit_keys_single (d : string) :
  In d digit_keys -> exists c : ascii, d = String c "".
Proof.
  unfold digit_keys. simpl. intros Hd.
  repeat (destruct Hd as [<- | Hd]; [eexists; reflexivity|]). elim Hd.
Qed.

Local Ltac unchanged :=
  match goal with
  | H : _ -> begins_with_00 _ = false |- _ =>
      first [exact H | intros _; apply H; reflexivity]
  end.

Lemma no_00_perform (a : action) (st : state) :
  issued a ->
  (overwrite st = false -> begins_with_00 (currentOperand st) = false) ->
  overwrite (perform a st) = false ->
  begins_with_00 (currentOperand (perform a st)) = false.
Proof.
  intros Ha Hst.
  destruct Ha as [| | d Hd | op Hop |]; simpl.
  - reflexivity.
  - unfold deleteNumber. destruct (overwrite st) eqn:Ho; [reflexivity|].
    destruct (String.eqb (currentOperand st) ""); [unchanged|].
    simpl. intros _. apply begins_with_00_slice, Hst, eq_refl.
  - destruct (digit_keys_single d Hd) as [c ->].
    unfold appendNumber.
    destruct (String.eqb (String c "") "." && _); [unchanged|].
    destruct (overwrite st) eqn:Ho; [reflexivity|].
    destruct (String.eqb (String c "") "0" &&
              String.eqb (currentOperand st) "0") eqn:E0; [unchanged|].
    destruct (String.eqb (String c "") "." && _); [reflexivity|].
    simpl. intros _. apply begins_with_00_append; [apply Hst, eq_refl|].
    intros [Hs Hc]. rewrite Hs, Hc in E0. discriminate E0.
  - unfold chooseOperation.
    destruct (String.eqb (currentOperand st) ""); [unchanged|].
    destruct (negb (String.eqb (previousOperand st) "")); [|reflexivity].
    destruct (negb (JS.isNaN _) && negb (JS.isNaN _)); [|reflexivity].
    destruct (apply_operation _ _ _); [reflexivity | unchanged].
  - unfold compute.
    destruct (JS.isNaN _ || JS.isNaN _); [unchanged|].
    destruct (apply_operation _ _ _); [discriminate | unchanged].
Qed.

(** X8. No operand that the user types begins with two zeros: in
    every reachable state without the overwrite flag the current
    operand does not begin with "00". *)
Theorem reachable_no_leading_00 (st : state) :
  reachable st -> overwrite st = false ->
  begins_with_00 (currentOperand st) = false.
Proof.
  induction 1 as [|a st _ IH Ha]; [reflexivity|].
  now apply no_00_perform.
Qed.

Lemma reachable_no_leading_00_witness :
  let st := run [AppendNumber "0"; AppendNumber "0"; AppendNumber "0"] initial in
  overwrite st = false /\ begins_with_00 (currentOperand st) = false.
Proof.
  split; [reflexivity|].
  apply (reachable_no_leading_00
           (run [AppendNumber "0"; AppendNumber "0"; AppendNumber "0"] initial)).
  - apply reachable_run; [constructor|]. issued_actions.
  - reflexivity.
Defined.

(* ================================================================= *)
(** ** Buttons and keys *)

Lemma onClick_perform (b : button) (st : state) :
  onClick b st = perform (action_of_button b) st.
Proof. destruct b; reflexivity. Qed.

Lemma action_of_button_issued (b : button) : issued (action_of_button b).
Proof. destruct b; constructor; simpl; auto 20. Qed.

Lemma issued_has_button (a : action) :
  issued a -> exists b : button, action_of_button b = a.
Proof.
  intros [| | d Hd | op Hop |].
  - now exists ButtonAC.
  - now exists ButtonDelete.
  - unfold digit_keys in Hd. simpl in Hd.
    destruct Hd as [<- | [<- | [<- | [<- | [<- | [<- | [<- | [<- | [<- |
                   [<- | [<- | []]]]]]]]]]]].
    + now exists Button0.
    + now exists Button1.
    + now exists Button2.
    + now exists Button3.
    + now exists Button4.
    + now exists Button5.
    + now exists Button6.
    + now exists Button7.
    + now exists Button8.
    + now exists Button9.
    + now exists ButtonDot.
  - unfold operators in Hop. simpl in Hop.
    destruct Hop as [<- | [<- | [<- | [<- | []]]]].
    + now exists ButtonPlus.
    + now exists ButtonMinus.
    + now exists ButtonTimes.
    + now exists ButtonDivide.
  - now exists ButtonEquals.
Qed.

(** X9. The states that the user can reach are exactly those that
    clicks on the eighteen buttons of the grid lead to. *)
Theorem reachable_iff_clicked (st : state) : reachable st <-> clicked st.
Proof.
  split.
  - induction 1 as [|a st _ IH Ha]; [constructor|].
    destruct (issued_has_button a Ha) as [b <-].
    rewrite <- onClick_perform. now constructor.
  - induction 1 as [|b st _ IH]; [constructor|].
    rewrite onClick_perform.
    apply reachable_step; [exact IH | apply action_of_button_issued].
Qed.

(** X10. Every button has a key: on the key [key_of_button b] the
    listener runs the handler of the button [b], the [/] key standing
    for the division button. *)
Theorem key_does_what_button_does (b : button) (st : state) :
  fst (handleKeyDown (key_of_button b) st) = onClick b st.
Proof. destruct b; reflexivity. Qed.

Lemma single_digit_is_digit_key (c : ascii) :
  JS.is_digit c = true -> In (String c "") digit_keys.
Proof.
  destruct c as [[] [] [] [] [] [] [] []]; intros H;
    try discriminate H; simpl; auto 20.
Qed.

(** X11. The keys of a keyboard do not lead out of the reachable
    states: a key whose name is a single character, or does not begin
    with a digit, does what some button does, or nothing. *)
Theorem keyboard_stays_reachable (key : string) (st : state) :
  keyboard_key key -> reachable st ->
  reachable (fst (handleKeyDown key st)).
Proof.
  intros Hkey Hst. unfold handleKeyDown.
  destruct (JS.ge_string key "0" && JS.le_string key "9") eqn:Hrange.
  { apply digit_range_begins_with_digit in Hrange.
    destruct Hkey as [Hlen | Hnd]; [|congruence].
    destruct key as [|c [|c' key]]; try discriminate Hlen.
    simpl. apply (reachable_step (AppendNumber (String c ""))); [exact Hst|].
    constructor. now apply single_digit_is_digit_key. }
  destruct (String.eqb key ".").
  { simpl. apply (reachable_step (AppendNumber ".")); [exact Hst|].
    constructor. simpl. auto 20. }
  destruct (String.eqb key "=" || String.eqb key "Enter").
  { simpl. apply (reachable_step Equals); [exact Hst | constructor]. }
  destruct (String.eqb key "Backspace").
  { simpl. apply (reachable_step DeleteNumber); [exact Hst | constructor]. }
  destruct (String.eqb key "Escape").
  { simpl. apply (reachable_step Clear); [exact Hst | constructor]. }
  destruct (String.eqb key "+") eqn:Eplus.
  { apply String.eqb_eq in Eplus. subst key. simpl.
    apply (reachable_step (ChooseOperation "+")); [exact Hst|].
    constructor. simpl. auto. }
  destruct (String.eqb key "-") eqn:Eminus.
  { apply String.eqb_eq in Eminus. subst key. simpl.
    apply (reachable_step (ChooseOperation "-")); [exact Hst|].
    constructor. simpl. auto. }
  destruct (String.eqb key "*") eqn:Etimes.
  { apply String.eqb_eq in Etimes. subst key. simpl.
    apply (reachable_step (ChooseOperation "*")); [exact Hst|].
    constructor. simpl. auto. }
  destruct (String.eqb key "/") eqn:Eslash.
  { simpl. apply (reachable_step (ChooseOperation division_sign));
      [exact Hst|].
    constructor. simpl. auto 10. }
  simpl. exact Hst.
Qed.

Lemma keyboard_stays_reachable_witness :
  reachable (fst (handleKeyDown "/" (run [AppendNumber "8"] initial))).
Proof.
  apply (keyboard_stays_reachable "/" (run [AppendNumber "8"] initial)).
  - right. reflexivity.
  - apply reachable_run; [constructor|]. issued_actions.
Defined.

(** X12. The listener prevents the default action of a key exactly for
    [=] and [Enter]. *)
Theorem preventDefault_iff (key : string) (st : state) :
  snd (handleKeyDown key st) = true <-> key = "=" \/ key = "Enter".
Proof.
  unfold handleKeyDown.
  destruct (JS.ge_string key "0" && JS.le_string key "9") eqn:Hrange.
  { apply digit_range_begins_with_digit in Hrange. simpl.
    split; [discriminate|].
    intros [-> | ->]; discriminate Hrange. }
  destruct (String.eqb key ".") eqn:Edot.
  { apply String.eqb_eq in Edot. subst key. simpl.
    split; [discriminate | intros [H | H]; discriminate H]. }
  destruct (String.eqb key "=") eqn:Eeq.
  { apply String.eqb_eq in Eeq. simpl. split; auto. }
  destruct (String.eqb key "Enter") eqn:Eenter.
  { apply String.eqb_eq in Eenter. simpl. split; auto. }
  apply String.eqb_neq in Eeq, Eenter.
  assert (Hno : false = true <-> key = "=" \/ key = "Enter").
  { split; [discriminate | intros [H | H]; contradiction]. }
  simpl.
  repeat match goal with
         | |- context [if ?b then _ else _] => destruct b
         end; exact Hno.
Qed.

(* ================================================================= *)
(** ** Operands that parse *)

Lemma iter_pos_invariant {A : Type} (P : A -> Prop) (f : A -> A) :
  (forall x : A, P x -> P (f x)) ->
  forall (p : positive) (x : A), P x -> P (iter_pos f p x).
Proof.
  intros Hf. induction p as [p IH | p IH |]; intros x Hx; simpl; auto.
Qed.

Lemma shr_1_nonneg (mrs : shr_record) :
  0 <= shr_m mrs -> 0 <= shr_m (shr_1 mrs).
Proof.
  destruct mrs as [m r s]. simpl.
  destruct m as [|[p | p |]|p]; simpl; lia.
Qed.

Lemma shr_fexp_nonneg (m e : Z) (l : location) :
  0 <= m -> 0 <= shr_m (fst (shr_fexp JS.prec JS.emax m e l)).
Proof.
  intros Hm. unfold shr_fexp, shr.
  assert (H0 : 0 <= shr_m (shr_record_of_loc m l)).
  { destruct l as [|[]]; exact Hm. }
  destruct (fexp JS.prec JS.emax (Zdigits2 m + e) - e) as [|p|p];
    simpl; try exact H0.
  apply (iter_pos_invariant (fun mrs => 0 <= shr_m mrs)); [|exact H0].
  apply shr_1_nonneg.
Qed.

Lemma round_nearest_even_nonneg (m : Z) (l : location) :
  0 <= m -> 0 <= round_nearest_even m l.
Proof.
  intros Hm. destruct l as [|[]]; simpl; try lia.
  destruct (Z.even m); lia.
Qed.

Lemma binary_round_aux_not_nan (s : bool) (m e : Z) (l : location) :
  0 <= m ->
  JS.isNaN (binary_round_aux JS.prec JS.emax s m e l) = false.
Proof.
  intros Hm. unfold binary_round_aux.
  pose proof (shr_fexp_nonneg m e l Hm) as H1.
  destruct (shr_fexp JS.prec JS.emax m e l) as [mrs' e'].
  simpl in H1.
  pose proof (shr_fexp_nonneg _ e' loc_Exact
                (round_nearest_even_nonneg (shr_m mrs')
                   (loc_of_shr_record mrs') H1)) as H2.
  destruct (shr_fexp JS.prec JS.emax _ e' loc_Exact) as [mrs'' e''].
  simpl in H2.
  destruct (shr_m mrs'') as [|p|p]; [reflexivity | | lia].
  destruct (e'' <=? JS.emax - JS.prec); reflexivity.
Qed.

Lemma binary_normalize_not_nan (m e : Z) (szero : bool) :
  JS.isNaN (binary_normalize JS.prec JS.emax m e szero) = false.
Proof.
  unfold binary_normalize, binary_round.
  destruct m as [|p|p]; [reflexivity | |];
    destruct (shl_align _ _ _) as [mz ez];
    apply binary_round_aux_not_nan; lia.
Qed.

Lemma SFdiv_finite_not_nan (s1 s2 : bool) (m1 m2 : positive) (e1 e2 : Z) :
  JS.isNaN (SFdiv JS.prec JS.emax (S754_finite s1 m1 e1)
                                  (S754_finite s2 m2 e2)) = false.
Proof.
  unfold SFdiv, SFdiv_core_binary.
  set (m' := match _ - _ - _ with
             | Z0 => Zpos m1
             | Zpos _ => Z.shiftl (Zpos m1) _
             | Zneg _ => Z0
             end).
  assert (Hm' : 0 <= m').
  { unfold m'. destruct (_ - _ - _); try lia.
    apply Z.shiftl_nonneg. lia. }
  pose proof (Z.div_pos m' (Zpos m2) Hm' ltac:(lia)) as Hq.
  unfold Z.div in Hq.
  destruct (Z.div_eucl m' (Zpos m2)) as [q r]. simpl in Hq.
  now apply binary_round_aux_not_nan.
Qed.

(** A decimal is a number. *)
Lemma number_of_decimal_not_nan (neg : bool) (m : N) (e10 : Z) :
  JS.isNaN (JS.number_of_decimal neg m e10) = false.
Proof.
  unfold JS.number_of_decimal.
  destruct m as [|p]; [reflexivity|].
  destruct (0 <=? e10).
  - apply binary_normalize_not_nan.
  - apply SFdiv_finite_not_nan.
Qed.

Lemma span_digits_begins (c : ascii) (s : string) :
  JS.is_digit c = true ->
  exists ds rest : string, JS.span_digits (String c s) = (String c ds, rest).
Proof.
  intros Hc. simpl. rewrite Hc.
  destruct (JS.span_digits s) as [ds rest]. now exists ds, rest.
Qed.

Lemma parse_unsigned_begins_with_digit (neg : bool) (s : string) :
  begins_with_digit s = true -> JS.isNaN (JS.parse_unsigned neg s) = false.
Proof.
  destruct s as [|c s]; [discriminate|]. simpl begins_with_digit. intros Hc.
  unfold JS.parse_unsigned.
  destruct (prefix "Infinity" (String c s)); [reflexivity|].
  destruct (span_digits_begins c s Hc) as (ds & rest & ->).
  destruct (JS.span_fraction rest) as [fp r'].
  cbn [append]. apply number_of_decimal_not_nan.
Qed.

(** An operand that begins with a digit parses as a number. *)
Lemma parseFloat_begins_with_digit (s : string) :
  begins_with_digit s = true -> JS.isNaN (JS.parseFloat s) = false.
Proof.
  intros H. destruct s as [|c s]; [discriminate|].
  simpl in H. unfold JS.parseFloat. cbn [JS.trim_start].
  rewrite (is_digit_not_white_space c H).
  replace (Ascii.eqb c "-") with false
    by (symmetry; apply Ascii.eqb_neq; intros ->; discriminate H).
  replace (Ascii.eqb c "+") with false
    by (symmetry; apply Ascii.eqb_neq; intros ->; discriminate H).
  now apply parse_unsigned_begins_with_digit.
Qed.

Lemma parseFloat_minus (s : string) :
  begins_with_digit s = true ->
  JS.isNaN (JS.parseFloat (String "-" s)) = false.
Proof.
  intros H. unfold JS.parseFloat. cbn [JS.trim_start].
  change (JS.is_white_space "-") with false. cbv iota.
  change (Ascii.eqb "-" "-") with true. cbv iota.
  now apply parse_unsigned_begins_with_digit.
Qed.

Lemma begins_with_digit_append (s t : string) :
  begins_with_digit s = true -> begins_with_digit (s ++ t) = true.
Proof. destruct s; [discriminate | exact (fun H => H)]. Qed.

Lemma decimal_digits_begins_with_digit (n : N) :
  begins_with_digit (JS.decimal_digits n) = true.
Proof.
  pose proof (decimal_digits_all_digits n) as Hd.
  pose proof (decimal_digits_length n) as Hl.
  destruct (JS.decimal_digits n) as [|c s]; [simpl in Hl; lia|].
  simpl in Hd. now apply andb_true_iff in Hd.
Qed.

Lemma layout_begins_with_digit (ds : string) (n : Z) :
  begins_with_digit ds = true -> begins_with_digit (JS.layout ds n) = true.
Proof.
  intros Hds. destruct ds as [|c ds]; [discriminate|].
  unfold JS.layout.
  set (k := Z.of_nat (String.length (String c ds))).
  destruct ((k <=? n) && (n <=? 21));
    [now apply begins_with_digit_append|].
  destruct ((0 <? n) && (n <=? 21)) eqn:E.
  { apply andb_true_iff in E. destruct E as [E _]. apply Z.ltb_lt in E.
    destruct (Z.to_nat n) as [|j] eqn:Ej; [lia|]. exact Hds. }
  destruct ((-6 <? n) && (n <=? 0)); [reflexivity|].
  destruct (k =? 1); exact Hds.
Qed.

(** X13. The string of a number parses as a number again, unless the
    number is NaN: a stored result can be used as an operand. *)
Theorem parseFloat_Number_toString_isNaN (x : JS.number) :
  JS.isNaN (JS.parseFloat (JS.Number_toString x)) = JS.isNaN x.
Proof.
  destruct x as [s | s | | s m e]; try reflexivity.
  - destruct s; reflexivity.
  - simpl JS.isNaN. unfold JS.Number_toString.
    destruct (JS.shortest_decimal m e) as [d n].
    pose proof (layout_begins_with_digit _ n
                  (decimal_digits_begins_with_digit (Z.to_N d))) as H.
    destruct s.
    + now apply parseFloat_minus.
    + now apply parseFloat_begins_with_digit.
Qed.

(* ================================================================= *)
(** ** [compute] with two numbers *)

Lemma apply_operation_known (op : string) (x y : JS.number) :
  In op operators -> exists z : JS.number, apply_operation (Some op) x y = Some z.
Proof.
  unfold operators. simpl.
  intros [<- | [<- | [<- | [<- | []]]]]; eexists; reflexivity.
Qed.

(** X14. [compute] is never idle on two operands that begin with a
    digit and one of the four operators: it stores a result in the
    current operand, empties the previous operand, clears the operation
    and sets the overwrite flag. *)
Theorem compute_stores_result (st : state) (op : string) :
  begins_with_digit (previousOperand st) = true ->
  begins_with_digit (currentOperand st) = true ->
  operation st = Some op -> In op operators ->
  currentOperand (compute st) <> "" /\
  previousOperand (compute st) = "" /\
  operation (compute st) = None /\
  overwrite (compute st) = true.
Proof.
  intros Hp Hc Hop Hin. unfold compute.
  rewrite (parseFloat_begins_with_digit _ Hp),
          (parseFloat_begins_with_digit _ Hc), Hop.
  destruct (apply_operation_known op (JS.parseFloat (previousOperand st))
              (JS.parseFloat (currentOperand st)) Hin) as [z ->].
  simpl. repeat split. apply Number_toString_nonempty.
Qed.

Lemma compute_stores_result_witness :
  let st := mkState "0.5" "12" (Some "*") false in
  currentOperand (compute st) <> "" /\
  previousOperand (compute st) = "" /\
  operation (compute st) = None /\
  overwrite (compute st) = true.
Proof.
  apply (compute_stores_result (mkState "0.5" "12" (Some "*") false) "*").
  - reflexivity.
  - reflexivity.
  - reflexivity.
  - simpl. auto.
Defined.

(** X15. An operator pressed while an operation is pending folds it
    exactly as [=] would: the new previous operand is the result that
    [compute] stores, the current operand is emptied and the overwrite
    flag is left as it is. *)
Theorem chooseOperation_folds_as_compute (op : string) (st : state) :
  currentOperand st <> "" -> previousOperand st <> "" ->
  compute st <> st ->
  chooseOperation op st
  = {| currentOperand := ""; previousOperand := currentOperand (compute st);
       operation := Some op; overwrite := overwrite st |}.
Proof.
  intros Hc Hp Hcomp.
  apply String.eqb_neq in Hc, Hp.
  unfold chooseOperation. rewrite Hc, Hp. cbn [negb].
  unfold compute in *.
  destruct (JS.isNaN (JS.parseFloat (previousOperand st))) eqn:E1;
    [now elim Hcomp|].
  destruct (JS.isNaN (JS.parseFloat (currentOperand st))) eqn:E2;
    [now elim Hcomp|].
  cbn [negb andb orb] in *.
  destruct (apply_operation _ _ _); [reflexivity | now elim Hcomp].
Qed.

Lemma chooseOperation_folds_as_compute_witness :
  chooseOperation "*" (mkState "3" "2" (Some "+") false)
  = mkState "" "5" (Some "*") false.
Proof.
  assert (E : currentOperand (compute (mkState "3" "2" (Some "+") false))
              = "5") by (vm_compute; reflexivity).
  rewrite <- E.
  apply (chooseOperation_folds_as_compute "*"
           (mkState "3" "2" (Some "+") false)).
  - discriminate.
  - discriminate.
  - vm_compute. discriminate.
Defined.

(* ================================================================= *)
(** ** The display *)

Lemma group_thousands_nonempty (ds : string) :
  ds <> "" -> JS.group_thousands ds <> "".
Proof. destruct ds; [intros H; now elim H | discriminate]. Qed.

Lemma append_nonempty_l (s t : string) : s <> "" -> s ++ t <> "".
Proof. destruct s; [intros H; now elim H | discriminate]. Qed.

Lemma append_nonempty_r (s t : string) : t <> "" -> s ++ t <> "".
Proof. destruct s; [exact (fun H => H) | discriminate]. Qed.

Lemma Intl_NumberFormat_format_nonempty (x : JS.number) :
  JS.Intl_NumberFormat_format x <> "".
Proof.
  destruct x as [s | s | | s m e]; simpl.
  - destruct s; discriminate.
  - destruct s; discriminate.
  - discriminate.
  - apply append_nonempty_r, append_nonempty_l, group_thousands_nonempty.
    apply nonempty_length, decimal_digits_length.
Qed.

Lemma formatOperand_some (s : string) :
  s <> "" ->
  exists (d : ascii) (text : string),
    formatOperand (Some s) = Some (String d text).
Proof.
  intros Hs. destruct s as [|c s]; [now elim Hs|].
  pose proof (Intl_NumberFormat_format_nonempty
                (JS.parseFloat (nth 0 (JS.split (String c s) ".") ""))) as Hn.
  unfold formatOperand.
  destruct (JS.Intl_NumberFormat_format _) as [|d text]; [now elim Hn|].
  destruct (nth_error _ 1); eexists; eexists; reflexivity.
Qed.

(** X16. The lower line of the display is never blank: it shows "0"
    for an empty operand and the formatted operand otherwise. *)
Theorem current_line_never_blank (st : state) :
  current_line st <> "" /\
  (currentOperand st = "" -> current_line st = "0") /\
  (currentOperand st <> "" ->
   formatOperand (Some (currentOperand st)) = Some (current_line st)).
Proof.
  unfold current_line.
  destruct (currentOperand st) as [|c s] eqn:Hcur.
  - repeat split; [discriminate | intros H; now elim H].
  - destruct (formatOperand_some (String c s)) as (d & text & ->);
      [discriminate|].
    repeat split; discriminate.
Qed.

Lemma current_line_never_blank_witness :
  current_line initial = "0" /\
  formatOperand (Some "1234.5") = Some (current_line (mkState "1234.5" "" None false)).
Proof.
  split.
  - apply (proj1 (proj2 (current_line_never_blank initial))). reflexivity.
  - apply (proj2 (proj2 (current_line_never_blank
                           (mkState "1234.5" "" None false)))).
    discriminate.
Defined.

Lemma run_operation_has_previous (actions : list action) (st : state) :
  operation_has_previous st -> operation_has_previous (run actions st).
Proof.
  revert st. induction actions as [|a l IH]; intros st Hst; simpl;
    [exact Hst | apply IH, perform_operation_has_previous, Hst].
Qed.

Lemma run_previous_has_operation (actions : list action) (st : state) :
  previous_has_operation st -> previous_has_operation (run actions st).
Proof.
  revert st. induction actions as [|a l IH]; intros st Hst; simpl;
    [exact Hst | apply IH, perform_previous_has_operation, Hst].
Qed.

(** X17. The upper line of the display, after any run from the initial
    state: a single space when there is no previous operand, and
    otherwise the formatted previous operand, a space and the pending
    operator. *)
Theorem previous_line_shows_pending (actions : list action) :
  let st := run actions initial in
  (previousOperand st = "" -> previous_line st = " ") /\
  (previousOperand st <> "" ->
   exists text op : string,
     formatOperand (Some (previousOperand st)) = Some text /\
     operation st = Some op /\
     previous_line st = text ++ " " ++ op).
Proof.
  intros st.
  assert (H1 : operation_has_previous st).
  { apply run_operation_has_previous. intros H. now elim H. }
  assert (H2 : previous_has_operation st).
  { apply run_previous_has_operation. intros H. now elim H. }
  unfold operation_has_previous in H1.
  unfold previous_has_operation in H2.
  unfold previous_line. split.
  - intros Hp. rewrite Hp.
    destruct (operation st) as [op|] eqn:Hop; [|reflexivity].
    exfalso. apply H1; [discriminate | exact Hp].
  - intros Hp.
    destruct (formatOperand_some _ Hp) as (d & text & Hf).
    destruct (operation st) as [op|] eqn:Hop;
      [|exfalso; now apply (H2 Hp)].
    exists (String d text), op. rewrite Hf. repeat split.
Qed.

Lemma previous_line_shows_pending_witness :
  previous_line (run [] initial) = " " /\
  exists text op : string,
    formatOperand
      (Some (previousOperand
               (run [AppendNumber "1"; AppendNumber "2"; AppendNumber "3";
                     AppendNumber "4"; ChooseOperation "+"] initial)))
      = Some text /\
    operation (run [AppendNumber "1"; AppendNumber "2"; AppendNumber "3";
                    AppendNumber "4"; ChooseOperation "+"] initial)
      = Some op /\
    previous_line (run [AppendNumber "1"; AppendNumber "2"; AppendNumber "3";
                        AppendNumber "4"; ChooseOperation "+"] initial)
      = text ++ " " ++ op.
Proof.
  split.
  - apply (proj1 (previous_line_shows_pending [])). reflexivity.
  - apply (proj2 (previous_line_shows_pending
                    [AppendNumber "1"; AppendNumber "2"; AppendNumber "3";
                     AppendNumber "4"; ChooseOperation "+"])).
    discriminate.
Defined.

(* ================================================================= *)
(** ** Going on from a result *)

(** X18. An operator pressed after [=] carries the result on: it
    becomes the previous operand, the current operand is emptied, and
    the overwrite flag that [compute] has set stays. *)
Theorem chooseOperation_after_compute (op : string) (st : state) :
  compute st <> st ->
  chooseOperation op (compute st)
  = {| currentOperand := ""; previousOperand := currentOperand (compute st);
       operation := Some op; overwrite := true |}.
Proof.
  intros H. unfold compute in *.
  destruct (JS.isNaN _ || JS.isNaN _); [now elim H|].
  destruct (apply_operation _ _ _) as [z|]; [|now elim H].
  unfold chooseOperation. cbn [currentOperand previousOperand setOverwrite
    setPreviousOperand setOperation setCurrentOperand].
  replace (String.eqb (JS.Number_toString (round8 z)) "") with false
    by (symmetry; apply String.eqb_neq, Number_toString_nonempty).
  reflexivity.
Qed.

Lemma chooseOperation_after_compute_witness :
  chooseOperation "-" (compute (mkState "3" "2" (Some "+") false))
  = mkState "" "5" (Some "-") true.
Proof.
  assert (E : currentOperand (compute (mkState "3" "2" (Some "+") false))
              = "5") by (vm_compute; reflexivity).
  rewrite <- E.
  apply (chooseOperation_after_compute "-"
           (mkState "3" "2" (Some "+") false)).
  vm_compute. discriminate.
Defined.

(** The formatter prints the shortest decimal of a number, rounded to
    three fraction digits. *)
Lemma Intl_NumberFormat_examples :
  JS.Intl_NumberFormat_format (JS.parseFloat "1e23")
    = "100,000,000,000,000,000,000,000" /\
  JS.Intl_NumberFormat_format (JS.parseFloat "1.0005") = "1.001" /\
  JS.Intl_NumberFormat_format (JS.parseFloat "1234.5678") = "1,234.568" /\
  JS.Intl_NumberFormat_format (JS.parseFloat "-0.0004") = "-0" /\
  JS.Intl_NumberFormat_format (JS.parseFloat "0.30000000000000004") = "0.3".
Proof. vm_compute. repeat split; reflexivity. Qed.
